(** * Coolpack: detection and classification pipeline

  A shallow embedding of the Go sources of coolpack (the evidence
  view, the package-manager, runtime-version and framework resolvers,
  the syntax-tree property resolver, the native dependency mapper, the
  node provider and the orchestrator), followed by the properties the
  specification states about them.

  Go strings are byte sequences; they are modelled by [string], whose
  characters are the 256 values of [ascii]. Go maps are [gmap]s. *)

From Stdlib Require Import Ascii String List Bool Arith ZArith Lia.
From stdpp Require Import base option gmap strings list fin_maps.

Set Warnings "-register-all".

Local Open Scope string_scope.
Local Open Scope list_scope.

(** ** Go's [strings] package, as far as the sources use it *)

Module GoStrings.

(** The double quote, the single quote and the line feed. *)
Definition dq : ascii := "034"%char.
Definition sq : ascii := "039"%char.
Definition lf : ascii := "010"%char.
Definition DQ : string := String dq EmptyString.
Definition LF : string := String lf EmptyString.

Definition strEq (a b : string) : bool := bool_decide (a = b).

(** [strings.HasPrefix(s, p)] *)
Fixpoint HasPrefix (s p : string) {struct p} : bool :=
  match p with
  | EmptyString => true
  | String c p' =>
      match s with
      | EmptyString => false
      | String d s' => if Ascii.eqb c d then HasPrefix s' p' else false
      end
  end.

(** [s[n:]] for [n <= len(s)] *)
Fixpoint dropStr (n : nat) (s : string) : string :=
  match n with
  | O => s
  | S n' => match s with EmptyString => EmptyString | String _ s' => dropStr n' s' end
  end.

(** [strings.TrimPrefix(s, p)] *)
Definition TrimPrefix (s p : string) : string :=
  if HasPrefix s p then dropStr (String.length p) s else s.

Fixpoint revAcc (s acc : string) : string :=
  match s with
  | EmptyString => acc
  | String c s' => revAcc s' (String c acc)
  end.

Definition revStr (s : string) : string := revAcc s EmptyString.

Definition byte (n : nat) : ascii := ascii_of_nat n.

Fixpoint bytes (l : list nat) : string :=
  match l with
  | nil => EmptyString
  | n :: l' => String (byte n) (bytes l')
  end.

(** The white space of [unicode.IsSpace] in UTF-8: the six ASCII
    characters and the encodings of U+0085, U+00A0, U+1680,
    U+2000..U+200A, U+2028, U+2029, U+202F, U+205F and U+3000. Every
    multi-byte pattern starts with a lead byte and continues with
    continuation bytes, so matching a pattern at a byte position agrees
    with decoding runes from either end of the string. *)
Definition asciiSpace (c : ascii) : bool :=
  let n := nat_of_ascii c in
  (Nat.leb 9 n && Nat.leb n 13) || Nat.eqb n 32.

Definition unicodeSpaces : list string :=
  bytes [194; 133] :: bytes [194; 160] :: bytes [225; 154; 128] ::
  map (fun k => bytes [226; 128; 128 + k]) (seq 0 11) ++
  bytes [226; 128; 168] :: bytes [226; 128; 169] :: bytes [226; 128; 175] ::
  bytes [226; 129; 159] :: bytes [227; 128; 128] :: nil.

(** Width in bytes of the white-space rune [s] starts with, 0 if none. *)
Definition spaceWidth (pats : list string) (s : string) : nat :=
  match s with
  | EmptyString => 0
  | String c _ =>
      if asciiSpace c then 1
      else match List.find (HasPrefix s) pats with
           | Some p => String.length p
           | None => 0
           end
  end.

(** Drop leading white space. The fuel bounds the number of runes
    dropped; [String.length s] always suffices. *)
Fixpoint trimLeftFuel (pats : list string) (fuel : nat) (s : string) : string :=
  match fuel with
  | O => s
  | S f =>
      match spaceWidth pats s with
      | O => s
      | w => trimLeftFuel pats f (dropStr w s)
      end
  end.

Definition trimLeft (pats : list string) (s : string) : string :=
  trimLeftFuel pats (String.length s) s.

(** [strings.TrimSpace(s)]: the trailing white space is dropped on the
    reversed string with the reversed patterns. *)
Definition TrimSpace (s : string) : string :=
  let l := trimLeft unicodeSpaces s in
  revStr (trimLeft (map revStr unicodeSpaces) (revStr l)).

(** [strings.ToLower] on the ASCII letters. Go also maps upper-case
    letters outside ASCII; no rune outside ASCII has [l], [t] or [s]
    as its lower case, and the only use of [ToLower] in the sources is
    a prefix test against [lts]. *)
Definition lowerAscii (c : ascii) : ascii :=
  let n := nat_of_ascii c in
  if Nat.leb 65 n && Nat.leb n 90 then ascii_of_nat (n + 32) else c.

Fixpoint ToLower (s : string) : string :=
  match s with
  | EmptyString => EmptyString
  | String c s' => String (lowerAscii c) (ToLower s')
  end.

(** [strings.Split(s, sep)] for a one-byte separator: the pieces
    between the separators, always at least one piece. *)
Fixpoint Split (s : string) (sep : ascii) : list string :=
  match s with
  | EmptyString => [EmptyString]
  | String c s' =>
      if Ascii.eqb c sep then EmptyString :: Split s' sep
      else
        match Split s' sep with
        | piece :: rest => String c piece :: rest
        | [] => [String c EmptyString]
        end
  end.

(** [strings.SplitN(s, sep, 2)]: cut at the first separator only. *)
Fixpoint cutAcc (sep : ascii) (s : string) (cur : string) : list string :=
  match s with
  | EmptyString => [revStr cur]
  | String c s' =>
      if Ascii.eqb c sep then [revStr cur; s']
      else cutAcc sep s' (String c cur)
  end.

Definition SplitN2 (s : string) (sep : ascii) : list string :=
  cutAcc sep s EmptyString.

(** [strings.Fields(s)]: the maximal runs of bytes that are not white
    space. The fuel bounds the number of steps. *)
Fixpoint fieldsFuel (fuel : nat) (s : string) (cur : string) : list string :=
  let flush := match cur with EmptyString => [] | _ => [revStr cur] end in
  match fuel with
  | O => flush
  | S f =>
      match s with
      | EmptyString => flush
      | String c s' =>
          match spaceWidth unicodeSpaces s with
          | O => fieldsFuel f s' (String c cur)
          | w => flush ++ fieldsFuel f (dropStr w s) EmptyString
          end
      end
  end.

Definition Fields (s : string) : list string :=
  fieldsFuel (S (String.length s)) s EmptyString.

(** ** [unicode/utf8] *)

Definition inRange (lo hi : nat) (c : ascii) : bool :=
  Nat.leb lo (nat_of_ascii c) && Nat.leb (nat_of_ascii c) hi.

(** The table [first] with its accept ranges: for a leading byte above
    127, the size of the encoding it starts and the range of the second
    byte; [None] for a byte that starts no encoding. *)
Definition acceptRange (b0 : ascii) : option (nat * nat * nat) :=
  if inRange 194 223 b0 then Some (2, 128, 191)
  else if inRange 224 224 b0 then Some (3, 160, 191)
  else if inRange 225 236 b0 then Some (3, 128, 191)
  else if inRange 237 237 b0 then Some (3, 128, 159)
  else if inRange 238 239 b0 then Some (3, 128, 191)
  else if inRange 240 240 b0 then Some (4, 144, 191)
  else if inRange 241 243 b0 then Some (4, 128, 191)
  else if inRange 244 244 b0 then Some (4, 128, 143)
  else None.

(** The next [n] bytes are continuation bytes. *)
Fixpoint continuations (n : nat) (s : string) : bool :=
  match n with
  | O => true
  | S n' =>
      match s with
      | EmptyString => false
      | String c s' => inRange 128 191 c && continuations n' s'
      end
  end.

(** The size [utf8.DecodeRuneInString(s)] returns for a string that
    starts with an encoding; [None] stands for the result
    [(RuneError, 1)] of a string that does not. *)
Definition runeSize (s : string) : option nat :=
  match s with
  | EmptyString => None
  | String b0 rest =>
      if Nat.ltb (nat_of_ascii b0) 128 then Some 1
      else
        match acceptRange b0, rest with
        | Some (size, lo, hi), String b1 rest' =>
            if inRange lo hi b1 && continuations (size - 2) rest'
            then Some size else None
        | _, _ => None
        end
  end.

(** The encoding of U+FFFD. *)
Definition replacementChar : string := bytes [239; 191; 189].



End GoStrings.

Import GoStrings.

(** ** Go's [path/filepath] on Unix: [Clean] and [Join] *)

Module Filepath.

Definition sep : ascii := "/"%char.

Fixpoint joinSep (l : list string) : string :=
  match l with
  | [] => ""
  | [x] => x
  | x :: l' => x ++ "/" ++ joinSep l'
  end.

(** One pass over the path elements with the output kept as a stack
    (last element first): empty and [.] elements are dropped, [..]
    removes the element before it when there is one that is not itself
    [..], is dropped at the root of a rooted path and is kept
    otherwise. *)
Fixpoint cleanElems (rooted : bool) (elems : list string) (stack : list string)
  : list string :=
  match elems with
  | [] => stack
  | e :: rest =>
      if strEq e "" || strEq e "." then cleanElems rooted rest stack
      else if strEq e ".." then
        match stack with
        | top :: under =>
            if strEq top ".." then cleanElems rooted rest (e :: stack)
            else cleanElems rooted rest under
        | [] =>
            if rooted then cleanElems rooted rest stack
            else cleanElems rooted rest (e :: stack)
        end
      else cleanElems rooted rest (e :: stack)
  end.

(** [filepath.Clean(path)] *)
Definition Clean (path : string) : string :=
  if strEq path "" then "."
  else
    let rooted := HasPrefix path "/" in
    let body := joinSep (rev (cleanElems rooted (Split path sep) [])) in
    if rooted then "/" ++ body
    else if strEq body "" then "." else body.

(** [filepath.Join(a, b)]: empty leading elements are ignored, the
    rest is joined with the separator and cleaned. *)
Definition Join (a b : string) : string :=
  if negb (strEq a "") then Clean (a ++ "/" ++ b)
  else if negb (strEq b "") then Clean b
  else "".

(** The elements of a cleaned path, and the relation: [p] is [root] or lies
    below it. *)
Definition elements (path : string) : list string :=
  List.filter (fun e => negb (strEq e "")) (Split path sep).

Definition within (root p : string) : Prop :=
  HasPrefix p "/" = HasPrefix root "/" /\
  exists tail, elements p = elements root ++ tail.

Definition withinb (root p : string) : bool :=
  Bool.eqb (HasPrefix p "/") (HasPrefix root "/") &&
  bool_decide (take (length (elements root)) (elements p) = elements root).

End Filepath.

(** ** Package app: the evidence view *)

Module App.

(** The operating system as the evidence view sees it: [os.Stat]
    succeeding, [os.ReadFile] ([None] is a read error),
    [filepath.Glob] ([None] is a malformed pattern) and [os.Getenv]. *)
Record OS := mkOS {
  Stat : string -> bool;
  OsReadFile : string -> option string;
  Glob : string -> option (list string);
  Getenv : string -> string
}.

(** [Context]: the application root and the environment overlay. *)
Record Context := mkContext {
  Path : string;
  Env : gmap string string
}.

Definition NewContext (path : string) : Context :=
  {| Path := path; Env := ∅ |}.

(** [m[k]] on a Go [map[string]string]: the zero value when absent. *)
Definition mapGet (m : gmap string string) (k : string) : string :=
  default "" (m !! k).

(** The path an operation hands to the operating system. *)
Definition resolve (ctx : Context) (name : string) : string :=
  Filepath.Join (Path ctx) name.

Definition HasFile (os : OS) (ctx : Context) (name : string) : bool :=
  Stat os (resolve ctx name).

Definition ReadFile (os : OS) (ctx : Context) (name : string) : option string :=
  OsReadFile os (resolve ctx name).

(** [ListFiles]: [rel] stands for [filepath.Rel], whose failures are
    skipped. *)
Definition ListFiles (rel : string -> string -> option string)
    (os : OS) (ctx : Context) (pattern : string) : option (list string) :=
  match Glob os (resolve ctx pattern) with
  | None => None
  | Some matches => Some (omap (rel (Path ctx)) matches)
  end.

(** ** The plan and its wire format (plan.go) *)

(** JSON values. Numbers are left out: nothing in the sources stores
    one in a plan. *)
Inductive JValue :=
| JNull
| JBool (b : bool)
| JString (s : string)
| JArray (l : list JValue)
| JObject (m : gmap string JValue).

(** [Plan]. The optional fields are plain Go strings: the struct has no
    state for an absent field other than the empty string. A nil slice
    or map is the empty one. *)
Record Plan := mkPlan {
  Provider : string;
  Language : string;
  LanguageVersion : string;
  Framework : string;
  FrameworkVersion : string;
  PackageManager : string;
  PackageManagerVersion : string;
  InstallCommand : string;
  BuildCommand : string;
  StartCommand : string;
  DetectedFiles : list string;
  Metadata : gmap string JValue;
  BuildEnv : gmap string string;
  PlanEnv : gmap string string
}.

(** A wire document: the members of the top-level JSON object. *)
Definition Wire := gmap string JValue.

(** What [encoding/json] writes for a Go string, read back by a
    decoder: the encodings of the string are kept and every byte that
    starts none is replaced by U+FFFD. [skip] counts the bytes of the
    current encoding that are still to be copied. *)
Fixpoint coerceFrom (skip : nat) (s : string) : string :=
  match s with
  | EmptyString => EmptyString
  | String b rest =>
      match skip with
      | S k => String b (coerceFrom k rest)
      | O =>
          match runeSize s with
          | Some size => String b (coerceFrom (size - 1) rest)
          | None => replacementChar ++ coerceFrom 0 rest
          end
      end
  end.

Definition coerceUTF8 (s : string) : string := coerceFrom 0 s.

(** The members of a Go map are written sorted by key, bytewise; the
    list below holds them from the last one written to the first. *)
Fixpoint insertDesc {A : Type} (kv : string * A) (l : list (string * A))
  : list (string * A) :=
  match l with
  | [] => [kv]
  | y :: l' => if String.leb y.1 kv.1 then kv :: l else y :: insertDesc kv l'
  end.

Definition sortDesc {A : Type} (l : list (string * A)) : list (string * A) :=
  foldr insertDesc [] l.

(** The keys of a map as a decoder receives them: every key is written
    coerced, and of two members written with the same key the decoder
    keeps the one written last. *)
Definition coerceKeys {A : Type} (m : gmap string A) : gmap string A :=
  list_to_map ((fun kv => (coerceUTF8 kv.1, kv.2)) <$> sortDesc (map_to_list m)).

(** The same for the strings and the keys inside a value. *)
Fixpoint coerceValue (v : JValue) : JValue :=
  match v with
  | JString s => JString (coerceUTF8 s)
  | JArray l => JArray (List.map coerceValue l)
  | JObject m => JObject (coerceKeys (coerceValue <$> m))
  | JNull | JBool _ => v
  end.

Definition encodeObject (m : gmap string JValue) : gmap string JValue :=
  coerceKeys (coerceValue <$> m).

Definition encodeStrings (m : gmap string string) : gmap string string :=
  coerceKeys (coerceUTF8 <$> m).

(** What [encoding/json] does with a field according to its tag: a
    field tagged [omitempty] is left out when it is empty; what is
    written is coerced to valid UTF-8. *)
Definition putString (omitempty : bool) (key value : string)
    (w : gmap string JValue) : gmap string JValue :=
  if omitempty && strEq value "" then w
  else <[key := JString (coerceUTF8 value)]> w.

Definition putStrings (key : string) (l : list string)
    (w : gmap string JValue) : gmap string JValue :=
  match l with
  | [] => w
  | _ => <[key := JArray ((fun s => JString (coerceUTF8 s)) <$> l)]> w
  end.

Definition putObject (key : string) (m : gmap string JValue)
    (w : gmap string JValue) : gmap string JValue :=
  if bool_decide (m = ∅) then w else <[key := JObject (encodeObject m)]> w.

Definition putStringMap (key : string) (m : gmap string string)
    (w : gmap string JValue) : gmap string JValue :=
  if bool_decide (m = ∅) then w
  else <[key := JObject (JString <$> encodeStrings m)]> w.

(** [json.Marshal(plan)] *)
Definition serialize (p : Plan) : gmap string JValue :=
  putString false "provider" (Provider p)
  (putString false "language" (Language p)
  (putString true "language_version" (LanguageVersion p)
  (putString true "framework" (Framework p)
  (putString true "framework_version" (FrameworkVersion p)
  (putString true "package_manager" (PackageManager p)
  (putString true "package_manager_version" (PackageManagerVersion p)
  (putString true "install_command" (InstallCommand p)
  (putString true "build_command" (BuildCommand p)
  (putString true "start_command" (StartCommand p)
  (putStrings "detected_files" (DetectedFiles p)
  (putObject "metadata" (Metadata p)
  (putStringMap "build_env" (BuildEnv p)
  (putStringMap "env" (PlanEnv p) ∅))))))))))))).

(** Decoding into a zero-valued field: an absent member and [null]
    leave the zero value, a value of another JSON type is an error
    ([None]). *)
Definition stringOf (v : JValue) : option string :=
  match v with
  | JString s => Some s
  | JNull => Some ""
  | _ => None
  end.

Definition getString (w : gmap string JValue) (key : string) : option string :=
  match w !! key with
  | None => Some ""
  | Some v => stringOf v
  end.

Definition getStrings (w : gmap string JValue) (key : string)
  : option (list string) :=
  match w !! key with
  | None | Some JNull => Some []
  | Some (JArray l) => mapM stringOf l
  | Some _ => None
  end.

Definition stringMapOf (m : gmap string JValue) : option (gmap string string) :=
  if bool_decide (map_Forall (fun _ v => is_Some (stringOf v)) m)
  then Some (omap stringOf m) else None.

Definition getStringMap (w : gmap string JValue) (key : string)
  : option (gmap string string) :=
  match w !! key with
  | None | Some JNull => Some ∅
  | Some (JObject m) => stringMapOf m
  | Some _ => None
  end.

Definition getObject (w : gmap string JValue) (key : string)
  : option (gmap string JValue) :=
  match w !! key with
  | None | Some JNull => Some ∅
  | Some (JObject m) => Some m
  | Some _ => None
  end.

(** [json.Unmarshal(doc, &plan)] on a document whose member names are
    spelled as in the tags. *)
Definition parse (w : gmap string JValue) : option Plan :=
  provider ← getString w "provider";
  language ← getString w "language";
  languageVersion ← getString w "language_version";
  framework ← getString w "framework";
  frameworkVersion ← getString w "framework_version";
  packageManager ← getString w "package_manager";
  packageManagerVersion ← getString w "package_manager_version";
  installCommand ← getString w "install_command";
  buildCommand ← getString w "build_command";
  startCommand ← getString w "start_command";
  detectedFiles ← getStrings w "detected_files";
  metadata ← getObject w "metadata";
  buildEnv ← getStringMap w "build_env";
  env ← getStringMap w "env";
  Some (mkPlan provider language languageVersion framework frameworkVersion
          packageManager packageManagerVersion installCommand buildCommand
          startCommand detectedFiles metadata buildEnv env).

End App.

(** ** Package node: the manifest *)

Module Node.
Import App.

Record Engines := mkEngines {
  eng_Node : string;
  eng_NPM : string;
  eng_Yarn : string;
  eng_PNPM : string;
  eng_Bun : string
}.

(** [PackageJSON]. A nil Go map reads like the empty map, so the three
    maps are [gmap]s; [pkg_Workspaces] is [Workspaces.Packages]. *)
Record PackageJSON := mkPackageJSON {
  pkg_Name : string;
  pkg_Version : string;
  pkg_Main : string;
  pkg_Type : string;
  pkg_Scripts : gmap string string;
  pkg_Dependencies : gmap string string;
  pkg_DevDependencies : gmap string string;
  pkg_Engines : Engines;
  pkg_PackageManager : string;
  pkg_Workspaces : list string;
  pkg_CacheDirectories : list string
}.

Definition HasScript (p : PackageJSON) (name : string) : bool :=
  bool_decide (is_Some (pkg_Scripts p !! name)).

Definition GetScript (p : PackageJSON) (name : string) : string :=
  mapGet (pkg_Scripts p) name.

Definition HasDependency (p : PackageJSON) (name : string) : bool :=
  match pkg_Dependencies p !! name with
  | Some _ => true
  | None =>
      match pkg_DevDependencies p !! name with
      | Some _ => true
      | None => false
      end
  end.

Definition GetDependencyVersion (p : PackageJSON) (name : string) : string :=
  match pkg_Dependencies p !! name with
  | Some v => v
  | None =>
      match pkg_DevDependencies p !! name with
      | Some v => v
      | None => ""
      end
  end.

(** [GetPackageManagerInfo]: the name before the first [@], the version
    after it up to the first [+]. *)
Definition GetPackageManagerInfo (p : PackageJSON) : string * string :=
  if strEq (pkg_PackageManager p) "" then ("", "")
  else
    match SplitN2 (pkg_PackageManager p) "@"%char with
    | name :: rest :: _ => (name, hd "" (Split rest "+"%char))
    | name :: [] => (name, "")
    | [] => ("", "")
    end.

Definition IsMonorepo (p : PackageJSON) : bool :=
  Nat.ltb 0 (length (pkg_Workspaces p)).

(** ** The package manager resolver *)

Inductive PackageManager :=
| PackageManagerNPM
| PackageManagerYarn1
| PackageManagerYarnBerry
| PackageManagerPNPM
| PackageManagerBun.

Definition PackageManager_string (pm : PackageManager) : string :=
  match pm with
  | PackageManagerNPM => "npm"
  | PackageManagerYarn1 => "yarn"
  | PackageManagerYarnBerry => "yarnberry"
  | PackageManagerPNPM => "pnpm"
  | PackageManagerBun => "bun"
  end.

Record PackageManagerInfo := mkPM {
  pm_Name : PackageManager;
  pm_Version : string
}.

(** [isYarnBerry]: the first byte is a digit from 2 to 9. *)
Definition isYarnBerry (version : string) : bool :=
  match version with
  | EmptyString => false
  | String c _ =>
      let n := nat_of_ascii c in
      Nat.leb (nat_of_ascii "2"%char) n && Nat.leb n (nat_of_ascii "9"%char)
  end.

(** The [switch] of step 1; [None] when no case applies. *)
Definition fromPackageManagerField (pmName pmVersion : string)
  : option PackageManagerInfo :=
  if strEq pmName "pnpm" then Some (mkPM PackageManagerPNPM pmVersion)
  else if strEq pmName "yarn" then
    Some (mkPM (if isYarnBerry pmVersion then PackageManagerYarnBerry
                else PackageManagerYarn1) pmVersion)
  else if strEq pmName "bun" then Some (mkPM PackageManagerBun pmVersion)
  else if strEq pmName "npm" then Some (mkPM PackageManagerNPM pmVersion)
  else None.

(** Step 2: the lock files, in the order of the source. *)
Definition fromLockFiles (os : OS) (ctx : Context) : option PackageManager :=
  if HasFile os ctx "pnpm-lock.yaml" then Some PackageManagerPNPM
  else if HasFile os ctx "bun.lockb" || HasFile os ctx "bun.lock"
    then Some PackageManagerBun
  else if HasFile os ctx ".yarnrc.yml" || HasFile os ctx ".yarnrc.yaml"
    then Some PackageManagerYarnBerry
  else if HasFile os ctx "yarn.lock" then Some PackageManagerYarn1
  else if HasFile os ctx "package-lock.json" then Some PackageManagerNPM
  else None.

(** Step 3: the engines field. *)
Definition fromEngines (e : Engines) : option PackageManager :=
  if negb (strEq (eng_PNPM e) "") then Some PackageManagerPNPM
  else if negb (strEq (eng_Bun e) "") then Some PackageManagerBun
  else if negb (strEq (eng_Yarn e) "") then Some PackageManagerYarn1
  else None.

(** Step 1 as a whole: the field names a package manager the [switch]
    knows. *)
Definition fieldSignal (pkg : PackageJSON) : option PackageManagerInfo :=
  let '(pmName, pmVersion) := GetPackageManagerInfo pkg in
  if negb (strEq pmName "") then fromPackageManagerField pmName pmVersion
  else None.

Definition DetectPackageManager (os : OS) (ctx : Context) (pkg : PackageJSON)
  : PackageManagerInfo :=
  match fieldSignal pkg with
  | Some info => info
  | None =>
      match fromLockFiles os ctx with
      | Some name => mkPM name ""
      | None =>
          match fromEngines (pkg_Engines pkg) with
          | Some name => mkPM name ""
          | None => mkPM PackageManagerNPM ""
          end
      end
  end.

Definition GetInstallCommand (pm : PackageManagerInfo) : string :=
  match pm_Name pm with
  | PackageManagerPNPM => "pnpm install --frozen-lockfile"
  | PackageManagerYarnBerry => "yarn install --immutable"
  | PackageManagerYarn1 => "yarn install --frozen-lockfile"
  | PackageManagerBun => "bun install --frozen-lockfile"
  | PackageManagerNPM => "npm ci"
  end.

Definition GetRunCommand (pm : PackageManagerInfo) : string :=
  match pm_Name pm with
  | PackageManagerPNPM => "pnpm"
  | PackageManagerYarnBerry | PackageManagerYarn1 => "yarn"
  | PackageManagerBun => "bun run"
  | PackageManagerNPM => "npm run"
  end.

Definition GetLockFile (pm : PackageManagerInfo) : string :=
  match pm_Name pm with
  | PackageManagerPNPM => "pnpm-lock.yaml"
  | PackageManagerYarnBerry | PackageManagerYarn1 => "yarn.lock"
  | PackageManagerBun => "bun.lockb"
  | PackageManagerNPM => "package-lock.json"
  end.

(** ** The runtime version resolver (version.go) *)

Definition DefaultNodeVersion : string := "24".

Definition normalizeVersion (v : string) : string :=
  TrimPrefix (TrimSpace v) "v".

(** [parseVersionFile]: the [lts] aliases collapse to the default. *)
Definition parseVersionFile (content : string) : string :=
  let v := TrimPrefix (TrimSpace content) "v" in
  if HasPrefix (ToLower v) "lts" then DefaultNodeVersion
  else v.

Definition isDigit (c : ascii) : bool :=
  let n := nat_of_ascii c in Nat.leb 48 n && Nat.leb n 57.

Fixpoint takeDigits (s : string) : string :=
  match s with
  | EmptyString => EmptyString
  | String c s' => if isDigit c then String c (takeDigits s') else EmptyString
  end.

(** Group 1 of the leftmost match of [(\d+)(?:\.(\d+))?(?:\.(\d+))?]:
    the match starts at the first digit and the greedy [\d+] takes the
    whole run of digits there. Without a digit there is no match. *)
Fixpoint firstDigitRun (s : string) : string :=
  match s with
  | EmptyString => EmptyString
  | String c s' => if isDigit c then takeDigits s else firstDigitRun s'
  end.

Definition parseEngineVersion (constraint : string) : string :=
  firstDigitRun (TrimSpace constraint).

(** [parseToolVersions]: the second field of the first line whose first
    field is the tool. *)
Fixpoint toolVersionLines (lines : list string) (tool : string) : string :=
  match lines with
  | [] => ""
  | line :: rest =>
      match Fields (TrimSpace line) with
      | p0 :: p1 :: _ =>
          if strEq p0 tool then normalizeVersion p1
          else toolVersionLines rest tool
      | _ => toolVersionLines rest tool
      end
  end.

Definition parseToolVersions (content tool : string) : string :=
  toolVersionLines (Split content lf) tool.

(** The regular expression of [parseMiseToml],
    [(?:node|nodejs)\s*=\s*Q([^Q]+)Q] with Q the double quote, matched
    by hand. [\s] is tab, line feed, form feed, carriage return and
    space. *)
Definition isSpaceRE (c : ascii) : bool :=
  let n := nat_of_ascii c in
  Nat.eqb n 9 || Nat.eqb n 10 || Nat.eqb n 12 || Nat.eqb n 13 || Nat.eqb n 32.

Fixpoint skipSpaceRE (s : string) : string :=
  match s with
  | EmptyString => EmptyString
  | String c s' => if isSpaceRE c then skipSpaceRE s' else s
  end.

(** The bytes before the next double quote; [None] without one. *)
Fixpoint untilQuote (s : string) : option string :=
  match s with
  | EmptyString => None
  | String c s' =>
      if Ascii.eqb c dq then Some EmptyString
      else option_map (String c) (untilQuote s')
  end.

(** The part after the alternative, at the start of [t]; the capture.
    The greedy runs cannot give back a byte: what follows [\s*] is not
    white space and what follows the capture is the quote it excludes. *)
Definition miseTail (t : string) : option string :=
  match skipSpaceRE t with
  | String c t2 =>
      if Ascii.eqb c "="%char then
        match skipSpaceRE t2 with
        | String q t4 =>
            if Ascii.eqb q dq then
              match untilQuote t4 with
              | Some v => if strEq v "" then None else Some v
              | None => None
              end
            else None
        | EmptyString => None
        end
      else None
  | EmptyString => None
  end.

(** A match starting at the first byte: the alternative [node] is
    tried before [nodejs]. *)
Definition miseMatchAt (s : string) : option string :=
  if HasPrefix s "node" then
    match miseTail (dropStr 4 s) with
    | Some v => Some v
    | None => if HasPrefix s "nodejs" then miseTail (dropStr 6 s) else None
    end
  else None.

(** The leftmost match. *)
Fixpoint miseFind (s : string) : option string :=
  match miseMatchAt s with
  | Some v => Some v
  | None =>
      match s with
      | EmptyString => None
      | String _ s' => miseFind s'
      end
  end.

Definition parseMiseToml (content : string) : string :=
  match miseFind content with
  | Some v => normalizeVersion v
  | None => ""
  end.

(** The pattern of steps 4 to 7: the file exists, reads and parses to a
    value; the empty string stands for "no value". *)
Definition versionFromFile (os : OS) (ctx : Context) (name : string)
    (parse : string -> string) : string :=
  if HasFile os ctx name then
    match ReadFile os ctx name with
    | Some data => parse data
    | None => ""
    end
  else "".

Definition orElse (v : string) (next : string) : string :=
  if negb (strEq v "") then v else next.

(** Step 3: [engines.node] of a manifest that is not nil. *)
Definition versionFromEngines (pkg : option PackageJSON) : string :=
  match pkg with
  | Some p =>
      if negb (strEq (eng_Node (pkg_Engines p)) "")
      then parseEngineVersion (eng_Node (pkg_Engines p))
      else ""
  | None => ""
  end.

(** [DetectNodeVersion]; [pkg] may be nil. *)
Definition DetectNodeVersion (os : OS) (ctx : Context) (pkg : option PackageJSON)
  : string :=
  if negb (strEq (mapGet (Env ctx) "COOLPACK_NODE_VERSION") "") then
    normalizeVersion (mapGet (Env ctx) "COOLPACK_NODE_VERSION")
  else if negb (strEq (mapGet (Env ctx) "NODE_VERSION") "") then
    normalizeVersion (mapGet (Env ctx) "NODE_VERSION")
  else
    orElse (versionFromEngines pkg)
   (orElse (versionFromFile os ctx ".nvmrc" parseVersionFile)
   (orElse (versionFromFile os ctx ".node-version" parseVersionFile)
   (orElse (versionFromFile os ctx ".tool-versions"
              (fun data => parseToolVersions data "nodejs"))
   (orElse (versionFromFile os ctx "mise.toml" parseMiseToml)
      DefaultNodeVersion)))).

(** ** The syntax-tree property resolver (config_parser.go) *)

(** A tree-sitter node: its type, the field name it has in its parent
    (empty when it has none), its byte range in the source and its
    children, anonymous ones included. *)
Inductive SNode :=
| mkNode (type : string) (field : string) (startByte endByte : nat)
         (children : list SNode).

Definition Type_ (n : SNode) : string := let 'mkNode t _ _ _ _ := n in t.
Definition FieldName (n : SNode) : string := let 'mkNode _ f _ _ _ := n in f.
Definition StartByte (n : SNode) : nat := let 'mkNode _ _ s _ _ := n in s.
Definition EndByte (n : SNode) : nat := let 'mkNode _ _ _ e _ := n in e.
Definition Children (n : SNode) : list SNode := let 'mkNode _ _ _ _ c := n in c.

(** [node.ChildByFieldName(name)] *)
Definition ChildByFieldName (n : SNode) (name : string) : option SNode :=
  List.find (fun c => strEq (FieldName c) name) (Children n).

(** The two parsers: tree-sitter with the TypeScript and with the
    JavaScript grammar; [None] is a parse error. *)
Record Parsers := mkParsers {
  ParseTS : string -> option SNode;
  ParseJS : string -> option SNode
}.

(** [getNodeText]: [source[start:end]] with [end] clipped to the length
    of the source. For a tree parsed from [source], [start <= end]. *)
Definition getNodeText (node : SNode) (source : string) : string :=
  let stop := Nat.min (EndByte node) (String.length source) in
  substring (StartByte node) (stop - StartByte node) source.

Fixpoint lastChar (s : string) : option ascii :=
  match s with
  | EmptyString => None
  | String c EmptyString => Some c
  | String _ s' => lastChar s'
  end.

Definition trimQuotes (s : string) : string :=
  if Nat.leb 2 (String.length s) then
    match s, lastChar s with
    | String c _, Some d =>
        if (Ascii.eqb c dq && Ascii.eqb d dq) || (Ascii.eqb c sq && Ascii.eqb d sq)
        then substring 1 (String.length s - 2) s
        else s
    | _, _ => s
    end
  else s.

Definition isPairType (t : string) : bool :=
  strEq t "pair" || strEq t "property_assignment".

(** The value node of a pair whose key, quotes stripped, is the
    property name. *)
Definition pairValue (node : SNode) (source propertyName : string)
  : option SNode :=
  if isPairType (Type_ node) then
    match ChildByFieldName node "key", ChildByFieldName node "value" with
    | Some keyNode, Some valueNode =>
        if strEq (trimQuotes (getNodeText keyNode source)) propertyName
        then Some valueNode else None
    | _, _ => None
    end
  else None.

(** [findPropertyObjectNode]: pre-order search, first match wins. *)
Fixpoint findPropertyObjectNode (node : SNode) (source propertyName : string)
  : option SNode :=
  match pairValue node source propertyName with
  | Some v => Some v
  | None =>
      (fix children (l : list SNode) : option SNode :=
         match l with
         | [] => None
         | child :: l' =>
             match findPropertyObjectNode child source propertyName with
             | Some r => Some r
             | None => children l'
             end
         end) (Children node)
  end.

(** [FindNestedPropertyValue]; the empty string stands for no value. *)
Fixpoint FindNestedPropertyValue (node : option SNode) (source : string)
    (path : list string) : string :=
  match node, path with
  | None, _ => ""
  | Some _, [] => ""
  | Some n, p0 :: rest =>
      match findPropertyObjectNode n source p0 with
      | None => ""
      | Some objectNode =>
          match rest with
          | [] => trimQuotes (getNodeText objectNode source)
          | _ :: _ => FindNestedPropertyValue (Some objectNode) source rest
          end
      end
  end.

(** [findPropertyInNode]. [sibling] is [node.NextSibling()]. A matching
    pair and a matching identifier with a sibling return at once, also
    when the text they return is empty. *)
Fixpoint findPropertyInNode (node : SNode) (sibling : option SNode)
    (source propertyName : string) : string :=
  match
    (if isPairType (Type_ node) then
       match ChildByFieldName node "key", ChildByFieldName node "value" with
       | Some keyNode, Some valueNode =>
           if strEq (trimQuotes (getNodeText keyNode source)) propertyName
           then Some (trimQuotes (getNodeText valueNode source)) else None
       | _, _ => None
       end
     else None)
  with
  | Some value => value
  | None =>
      match
        (if strEq (Type_ node) "property_identifier" || strEq (Type_ node) "identifier"
         then
           if strEq (getNodeText node source) propertyName then
             match sibling with
             | Some sib => Some (trimQuotes (getNodeText sib source))
             | None => None
             end
           else None
         else None)
      with
      | Some value => value
      | None =>
          (fix children (l : list SNode) : string :=
             match l with
             | [] => ""
             | child :: l' =>
                 let result :=
                   findPropertyInNode child (head l') source propertyName in
                 if negb (strEq result "") then result else children l'
             end) (Children node)
      end
  end.

(** [FindPropertyValue]; the root of a tree has no sibling. *)
Definition FindPropertyValue (node : option SNode) (source propertyName : string)
  : string :=
  match node with
  | None => ""
  | Some n => findPropertyInNode n None source propertyName
  end.

(** ** The framework classifier *)

Inductive Framework :=
| FrameworkNone | FrameworkNextJS | FrameworkRemix | FrameworkNuxt
| FrameworkAstro | FrameworkVite | FrameworkCRA | FrameworkAngular
| FrameworkSvelteKit | FrameworkSolidStart | FrameworkExpress
| FrameworkFastify | FrameworkNestJS | FrameworkAdonisJS
| FrameworkReactRouter | FrameworkTanStack | FrameworkGatsby
| FrameworkEleventy.

Definition Framework_string (f : Framework) : string :=
  match f with
  | FrameworkNone => ""
  | FrameworkNextJS => "nextjs"
  | FrameworkRemix => "remix"
  | FrameworkNuxt => "nuxt"
  | FrameworkAstro => "astro"
  | FrameworkVite => "vite"
  | FrameworkCRA => "create-react-app"
  | FrameworkAngular => "angular"
  | FrameworkSvelteKit => "sveltekit"
  | FrameworkSolidStart => "solid-start"
  | FrameworkExpress => "express"
  | FrameworkFastify => "fastify"
  | FrameworkNestJS => "nestjs"
  | FrameworkAdonisJS => "adonisjs"
  | FrameworkReactRouter => "react-router"
  | FrameworkTanStack => "tanstack-start"
  | FrameworkGatsby => "gatsby"
  | FrameworkEleventy => "eleventy"
  end.

Inductive OutputType := OutputTypeNone | OutputTypeStatic | OutputTypeServer.

Definition OutputType_string (o : OutputType) : string :=
  match o with
  | OutputTypeNone => ""
  | OutputTypeStatic => "static"
  | OutputTypeServer => "server"
  end.

Record FrameworkInfo := mkFW {
  fw_Name : Framework;
  fw_Version : string;
  fw_OutputType : OutputType
}.

(** The block every configuration check repeats: the file exists, is
    read and parsed, and the resolver is asked for a value. Any failure
    gives the empty string, which no check compares equal to its
    marker. *)
Definition configValue (os : OS) (ctx : Context)
    (parser : string -> option SNode) (file : string)
    (query : option SNode -> string -> string) : string :=
  if HasFile os ctx file then
    match ReadFile os ctx file with
    | Some data =>
        match parser data with
        | Some root => query (Some root) data
        | None => ""
        end
    | None => ""
    end
  else "".

Definition property (name : string) : option SNode -> string -> string :=
  fun root data => FindPropertyValue root data name.

Definition isNextJSStaticExport (ps : Parsers) (os : OS) (ctx : Context) : bool :=
  strEq (configValue os ctx (ParseTS ps) "next.config.ts" (property "output")) "export"
  || existsb (fun configFile =>
        strEq (configValue os ctx (ParseJS ps) configFile (property "output")) "export")
       ["next.config.mjs"; "next.config.js"].

Definition isAstroSSRMode (ps : Parsers) (os : OS) (ctx : Context) : bool :=
  existsb (fun configFile =>
      let value :=
        configValue os ctx
          (if strEq configFile "astro.config.ts" then ParseTS ps else ParseJS ps)
          configFile (property "output") in
      strEq value "server" || strEq value "hybrid")
    ["astro.config.ts"; "astro.config.mjs"; "astro.config.js"].

Definition isNuxtSPAMode (ps : Parsers) (os : OS) (ctx : Context) : bool :=
  existsb (fun configFile =>
      strEq (configValue os ctx
               (if strEq configFile "nuxt.config.ts" then ParseTS ps else ParseJS ps)
               configFile (property "ssr")) "false")
    ["nuxt.config.ts"; "nuxt.config.js"; "nuxt.config.mjs"].

Definition isReactRouterSPAMode (ps : Parsers) (os : OS) (ctx : Context) : bool :=
  strEq (configValue os ctx (ParseTS ps) "react-router.config.ts" (property "ssr")) "false"
  || strEq (configValue os ctx (ParseJS ps) "react-router.config.js" (property "ssr")) "false".

Definition isSolidStartSPAMode (ps : Parsers) (os : OS) (ctx : Context) : bool :=
  strEq (configValue os ctx (ParseTS ps) "app.config.ts" (property "ssr")) "false"
  || strEq (configValue os ctx (ParseJS ps) "app.config.js" (property "ssr")) "false".

Definition serverPreset : option SNode -> string -> string :=
  fun root data => FindNestedPropertyValue root data ["server"; "preset"].

Definition isTanStackStartStaticMode (ps : Parsers) (os : OS) (ctx : Context) : bool :=
  strEq (configValue os ctx (ParseTS ps) "app.config.ts" serverPreset) "static"
  || strEq (configValue os ctx (ParseJS ps) "app.config.js" serverPreset) "static".

Definition isConstraintChar (c : ascii) : bool :=
  Ascii.eqb c "^" || Ascii.eqb c "~" || Ascii.eqb c ">" || Ascii.eqb c "<"
  || Ascii.eqb c "=".

Fixpoint stripConstraint (v : string) : string :=
  match v with
  | EmptyString => EmptyString
  | String c v' =>
      if isConstraintChar c || Ascii.eqb c " " then stripConstraint v' else v
  end.

Definition cleanVersion (v : string) : string :=
  match v with
  | String c _ => if isConstraintChar c then stripConstraint v else v
  | EmptyString => v
  end.

Definition staticIf (b : bool) : OutputType :=
  if b then OutputTypeStatic else OutputTypeServer.

(** [DetectFramework]: an ordered decision list, the first rule that
    matches returns. *)
Definition DetectFramework (ps : Parsers) (os : OS) (ctx : Context)
    (pkg : option PackageJSON) : FrameworkInfo :=
  match pkg with
  | None => mkFW FrameworkNone "" OutputTypeNone
  | Some pkg =>
    let dep := HasDependency pkg in
    let ver name := cleanVersion (GetDependencyVersion pkg name) in
    let file := HasFile os ctx in
    if dep "next" then
      mkFW FrameworkNextJS (ver "next") (staticIf (isNextJSStaticExport ps os ctx))
    else if dep "@remix-run/react" || dep "@remix-run/node" then
      mkFW FrameworkRemix (ver "@remix-run/react") OutputTypeServer
    else if dep "nuxt" || dep "nuxt3" then
      mkFW FrameworkNuxt (ver "nuxt") (staticIf (isNuxtSPAMode ps os ctx))
    else if dep "astro" || file "astro.config.mjs" || file "astro.config.js"
            || file "astro.config.ts" then
      mkFW FrameworkAstro (ver "astro")
        (if isAstroSSRMode ps os ctx then OutputTypeServer else OutputTypeStatic)
    else if dep "@sveltejs/kit" then
      mkFW FrameworkSvelteKit (ver "@sveltejs/kit")
        (staticIf (dep "@sveltejs/adapter-static"))
    else if dep "solid-start" || dep "@solidjs/start" then
      let version := GetDependencyVersion pkg "@solidjs/start" in
      let version :=
        if strEq version "" then GetDependencyVersion pkg "solid-start"
        else version in
      mkFW FrameworkSolidStart (cleanVersion version)
        (staticIf (isSolidStartSPAMode ps os ctx))
    else if dep "@tanstack/start" || dep "@tanstack/react-start" then
      mkFW FrameworkTanStack (ver "@tanstack/start")
        (staticIf (isTanStackStartStaticMode ps os ctx))
    else if dep "react-router"
            && (file "react-router.config.ts" || file "react-router.config.js") then
      mkFW FrameworkRemix (ver "react-router")
        (staticIf (isReactRouterSPAMode ps os ctx))
    else if dep "gatsby" then
      mkFW FrameworkGatsby (ver "gatsby") OutputTypeStatic
    else if dep "@11ty/eleventy" then
      mkFW FrameworkEleventy (ver "@11ty/eleventy") OutputTypeStatic
    else if dep "@angular/core" || file "angular.json" then
      mkFW FrameworkAngular (ver "@angular/core")
        (if dep "@angular/ssr" then OutputTypeServer else OutputTypeStatic)
    else if dep "@adonisjs/core" then
      mkFW FrameworkAdonisJS (ver "@adonisjs/core") OutputTypeServer
    else if dep "@nestjs/core" then
      mkFW FrameworkNestJS (ver "@nestjs/core") OutputTypeServer
    else if dep "fastify" then
      mkFW FrameworkFastify (ver "fastify") OutputTypeServer
    else if dep "express" then
      mkFW FrameworkExpress (ver "express") OutputTypeServer
    else if dep "react-scripts" then
      mkFW FrameworkCRA (ver "react-scripts") OutputTypeStatic
    else if dep "vite" || file "vite.config.js" || file "vite.config.ts"
            || file "vite.config.mjs" then
      mkFW FrameworkVite (ver "vite") OutputTypeStatic
    else mkFW FrameworkNone "" OutputTypeNone
  end.

Definition GetDefaultBuildCommand (f : FrameworkInfo) (pm : PackageManagerInfo)
  : string :=
  let run := GetRunCommand pm in
  match fw_Name f with
  | FrameworkNextJS | FrameworkRemix | FrameworkNuxt | FrameworkAstro
  | FrameworkVite | FrameworkCRA | FrameworkAngular | FrameworkSvelteKit
  | FrameworkGatsby => run ++ " build"
  | _ => ""
  end.

Definition GetDefaultStartCommand (f : FrameworkInfo) (pm : PackageManagerInfo)
  : string :=
  let run := GetRunCommand pm in
  match fw_Name f with
  | FrameworkNextJS => run ++ " start"
  | FrameworkRemix => run ++ " start"
  | FrameworkNuxt => "node .output/server/index.mjs"
  | FrameworkAstro => "node ./dist/server/entry.mjs"
  | FrameworkNestJS | FrameworkExpress | FrameworkFastify => run ++ " start"
  | _ => ""
  end.

(** ** The native dependency mapper *)

Record NativeDependency := mkNative {
  Package : string;
  AptPackages : list string;
  Description : string
}.

Definition browserLibraries : list string :=
  ["libnss3"; "libatk1.0-0"; "libatk-bridge2.0-0"; "libcups2"; "libdrm2";
   "libxkbcommon0"; "libxcomposite1"; "libxdamage1"; "libxfixes3";
   "libxrandr2"; "libgbm1"; "libasound2"; "libpango-1.0-0"; "libcairo2"].

(** The catalog, in the order of the source. *)
Definition NativeDependencies : list NativeDependency :=
  [ mkNative "sharp" ["libvips-dev"] "Image processing library";
    mkNative "@prisma/client" ["openssl"] "Database ORM";
    mkNative "prisma" ["openssl"] "Database ORM CLI";
    mkNative "puppeteer" ("chromium" :: browserLibraries)
      "Headless Chrome automation";
    mkNative "playwright" browserLibraries "Browser automation";
    mkNative "canvas"
      ["libcairo2-dev"; "libjpeg-dev"; "libpango1.0-dev"; "libgif-dev";
       "librsvg2-dev"] "Canvas rendering";
    mkNative "bcrypt" ["build-essential"; "python3"] "Password hashing";
    mkNative "argon2" ["build-essential"] "Password hashing";
    mkNative "sqlite3" ["build-essential"; "python3"] "SQLite database";
    mkNative "better-sqlite3" ["build-essential"; "python3"] "SQLite database";
    mkNative "node-gyp" ["build-essential"; "python3"] "Native addon build tool";
    mkNative "cpu-features" ["build-essential"] "CPU feature detection";
    mkNative "ssh2" ["build-essential"] "SSH client";
    mkNative "libsql" ["build-essential"] "LibSQL database";
    mkNative "@libsql/client" ["build-essential"] "LibSQL client" ].

Definition DetectNativeDependencies (pkg : PackageJSON) : list NativeDependency :=
  List.filter (fun dep => HasDependency pkg (Package dep)) NativeDependencies.

(** The state of the two loops of [GetRequiredAptPackages]: the [seen]
    map and the [packages] slice. *)
Definition AptState : Type := gmap string bool * list string.

Definition seenGet (seen : gmap string bool) (pkg : string) : bool :=
  default false (seen !! pkg).

Definition aptVisit (st : AptState) (pkg : string) : AptState :=
  if negb (seenGet st.1 pkg) then (<[pkg := true]> st.1, st.2 ++ [pkg])
  else st.

Definition aptVisitDep (st : AptState) (dep : NativeDependency) : AptState :=
  fold_left aptVisit (AptPackages dep) st.

Definition GetRequiredAptPackages (deps : list NativeDependency) : list string :=
  (fold_left aptVisitDep deps (∅, [])).2.

(** The de-duplication the specification describes, written without the
    map: every string stays at the place of its first occurrence. *)
Fixpoint firstSeen (l : list string) : list string :=
  match l with
  | [] => []
  | x :: l' => x :: List.filter (fun y => negb (strEq y x)) (firstSeen l')
  end.

(** ** The provider (node.go) *)

Definition spaRouters : list string :=
  ["vue-router"; "react-router-dom"; "react-router"; "@reach/router"; "wouter";
   "@tanstack/react-router"; "svelte-navigator"; "svelte-routing";
   "@roxi/routify"; "@solidjs/router"; "solid-app-router"; "preact-router";
   "navigo"; "page"].

Definition detectSPA (pkg : PackageJSON) (fw : FrameworkInfo) : bool :=
  match fw_Name fw with
  | FrameworkGatsby | FrameworkEleventy => false
  | FrameworkNextJS | FrameworkNuxt | FrameworkAstro => false
  | _ => existsb (HasDependency pkg) spaRouters
  end.

Definition determineBuildCommand (pkg : PackageJSON) (pm : PackageManagerInfo)
    (fw : FrameworkInfo) : string :=
  let run := GetRunCommand pm in
  if HasScript pkg "build" then run ++ " build"
  else GetDefaultBuildCommand fw pm.

(** [hasEntryPoint]: only the [main] field is compared; the file system
    is not looked at. *)
Definition hasEntryPoint (pkg : PackageJSON) (path : string) : bool :=
  strEq (pkg_Main pkg) path.

Definition entryPoints : list string :=
  ["dist/index.js"; "build/index.js"; "index.js"; "server.js"; "app.js"].

Definition determineStartCommand (pkg : PackageJSON) (pm : PackageManagerInfo)
    (fw : FrameworkInfo) : string :=
  let run := GetRunCommand pm in
  if HasScript pkg "start" then run ++ " start"
  else if HasScript pkg "serve" then run ++ " serve"
  else if negb (strEq (GetDefaultStartCommand fw pm) "")
    then GetDefaultStartCommand fw pm
  else if negb (strEq (pkg_Main pkg) "") then "node " ++ pkg_Main pkg
  else
    match List.find (hasEntryPoint pkg) entryPoints with
    | Some ep => "node " ++ ep
    | None => ""
    end.

Definition versionFiles : list string :=
  [".nvmrc"; ".node-version"; ".tool-versions"; "mise.toml"].

Definition configFiles : list string :=
  [".yarnrc.yml"; ".yarnrc.yaml"; ".npmrc"; ".pnpmrc";
   "tsconfig.json"; "jsconfig.json";
   "vite.config.js"; "vite.config.ts"; "vite.config.mjs";
   "next.config.js"; "next.config.mjs"; "next.config.ts";
   "astro.config.mjs"; "astro.config.js"; "astro.config.ts";
   "angular.json"; "remix.config.js"; "nuxt.config.ts"; "nuxt.config.js"].

Definition detectRelevantFiles (os : OS) (ctx : Context) (pm : PackageManagerInfo)
  : list string :=
  List.filter (HasFile os ctx) (GetLockFile pm :: versionFiles ++ configFiles).

(** [encoding/json] decoding the manifest; [None] is an error. *)
Definition Unmarshal : Type := string -> option PackageJSON.

Definition ParsePackageJSON (unmarshal : Unmarshal) (data : string)
  : option PackageJSON := unmarshal data.

(** A Go result [(T, error)]. *)
Inductive Result (A : Type) :=
| Ok (a : A)
| Err (msg : string).
Arguments Ok {A} a.
Arguments Err {A} msg.

(** [m[k] = v] when [cond] holds. *)
Definition setIf (cond : bool) (k : string) (v : JValue)
    (m : gmap string JValue) : gmap string JValue :=
  if cond then <[k := v]> m else m.

Definition jstrings (l : list string) : JValue := JArray (JString <$> l).

Definition languageOf (pmInfo : PackageManagerInfo) (nodeVersion : string)
  : string * string :=
  match pm_Name pmInfo with
  | PackageManagerBun =>
      ("bun", if negb (strEq (pm_Version pmInfo) "") then pm_Version pmInfo
              else "latest")
  | _ => ("nodejs", nodeVersion)
  end.

Definition isBun (pmInfo : PackageManagerInfo) : bool :=
  match pm_Name pmInfo with PackageManagerBun => true | _ => false end.

Definition isStatic (m : gmap string JValue) : bool :=
  match m !! "output_type" with
  | Some (JString t) => strEq t "static"
  | _ => false
  end.

(** The metadata, assigned in the order of the source. *)
Definition planMetadata (os : OS) (ctx : Context) (pkg : PackageJSON)
    (pmInfo : PackageManagerInfo) (fwInfo : FrameworkInfo)
  : gmap string JValue :=
  let hasFw := match fw_Name fwInfo with FrameworkNone => false | _ => true end in
  let hasOut := match fw_OutputType fwInfo with OutputTypeNone => false | _ => true end in
  let nativeDeps := DetectNativeDependencies pkg in
  let hasNative := Nat.ltb 0 (length nativeDeps) in
  let m := setIf (isBun pmInfo) "runtime" (JString "bun") ∅ in
  let m := setIf (isBun pmInfo) "runtime_note"
             (JString "Using Bun runtime (oven/bun image)") m in
  let m := setIf (hasFw && hasOut) "output_type"
             (JString (OutputType_string (fw_OutputType fwInfo))) m in
  let m := setIf (negb (strEq (pkg_Name pkg) "")) "name" (JString (pkg_Name pkg)) m in
  let m := setIf (negb (strEq (pkg_Version pkg) "")) "version"
             (JString (pkg_Version pkg)) m in
  let m := setIf (IsMonorepo pkg) "is_monorepo" (JBool true) m in
  let m := setIf (IsMonorepo pkg) "workspaces" (jstrings (pkg_Workspaces pkg)) m in
  let m := setIf (negb (strEq (pkg_Type pkg) "")) "module_type"
             (JString (pkg_Type pkg)) m in
  let m := setIf hasNative "apt_packages"
             (jstrings (GetRequiredAptPackages nativeDeps)) m in
  let m := setIf hasNative "native_packages"
             (jstrings (map Package nativeDeps)) m in
  let m := setIf (negb (strEq (mapGet (Env ctx) "COOLPACK_BASE_IMAGE") ""))
             "base_image" (JString (mapGet (Env ctx) "COOLPACK_BASE_IMAGE")) m in
  let m := setIf (HasDependency pkg "cypress") "has_cypress" (JBool true) m in
  let m := setIf (HasFile os ctx ".moon/workspace.yml") "has_moon" (JBool true) m in
  let m := setIf (Nat.ltb 0 (length (pkg_CacheDirectories pkg)))
             "cache_directories" (jstrings (pkg_CacheDirectories pkg)) m in
  setIf (isStatic m && detectSPA pkg fwInfo) "is_spa" (JBool true) m.

Definition Provider_Name : string := "node".

Definition Provider_Detect (os : OS) (ctx : Context) : Result bool :=
  Ok (HasFile os ctx "package.json").

Definition Provider_Plan (unmarshal : Unmarshal) (ps : Parsers)
    (os : OS) (ctx : Context) : Result Plan :=
  match ReadFile os ctx "package.json" with
  | None => Err "failed to read package.json"
  | Some pkgData =>
      match ParsePackageJSON unmarshal pkgData with
      | None => Err "failed to parse package.json"
      | Some pkg =>
          let pmInfo := DetectPackageManager os ctx pkg in
          let nodeVersion := DetectNodeVersion os ctx (Some pkg) in
          let fwInfo := DetectFramework ps os ctx (Some pkg) in
          let '(language, languageVersion) := languageOf pmInfo nodeVersion in
          let hasFw :=
            match fw_Name fwInfo with FrameworkNone => false | _ => true end in
          Ok {| Provider := "node";
                Language := language;
                LanguageVersion := languageVersion;
                App.Framework :=
                  if hasFw then Framework_string (fw_Name fwInfo) else "";
                FrameworkVersion := if hasFw then fw_Version fwInfo else "";
                App.PackageManager := PackageManager_string (pm_Name pmInfo);
                PackageManagerVersion := pm_Version pmInfo;
                InstallCommand := GetInstallCommand pmInfo;
                BuildCommand := determineBuildCommand pkg pmInfo fwInfo;
                StartCommand := determineStartCommand pkg pmInfo fwInfo;
                DetectedFiles :=
                  "package.json" :: detectRelevantFiles os ctx pmInfo;
                Metadata := planMetadata os ctx pkg pmInfo fwInfo;
                BuildEnv := ∅;
                PlanEnv := ∅ |}
      end
  end.

End Node.

(** ** Package detector: the orchestrator *)

Module Detector.
Import App Node.

(** The [Provider] interface. *)
Record Provider := mkProvider {
  Name : string;
  Detect : OS -> Context -> Result bool;
  Plan_ : OS -> Context -> Result Plan
}.

Record Detector := mkDetector {
  path : string;
  providers : list Provider
}.

(** [node.New()] as a [Provider]. *)
Definition nodeProvider (unmarshal : Unmarshal) (ps : Parsers) : Provider :=
  {| Name := Provider_Name;
     Detect := Provider_Detect;
     Plan_ := Provider_Plan unmarshal ps |}.

Definition registerProviders (unmarshal : Unmarshal) (ps : Parsers)
    (d : Detector) : Detector :=
  {| path := path d; providers := providers d ++ [nodeProvider unmarshal ps] |}.

Definition New (unmarshal : Unmarshal) (ps : Parsers) (p : string) : Detector :=
  registerProviders unmarshal ps {| path := p; providers := [] |}.

Definition envVars : list string :=
  ["COOLPACK_INSTALL_CMD"; "COOLPACK_BUILD_CMD"; "COOLPACK_START_CMD";
   "COOLPACK_BASE_IMAGE"; "COOLPACK_NODE_VERSION"; "COOLPACK_SPA_OUTPUT_DIR";
   "COOLPACK_STATIC_SERVER"; "NODE_VERSION"].

Definition loadRelevantEnvVars (os : OS) : gmap string string :=
  fold_left (fun env v =>
               if negb (strEq (Getenv os v) "") then <[v := Getenv os v]> env
               else env)
            envVars ∅.

(** The loop of [Detect] over the providers that are left. A detect
    error moves on to the next provider; the first provider that
    detects returns its plan or its error; [Ok None] is [nil, nil]. *)
Fixpoint tryProviders (os : OS) (ctx : Context) (ps : list Provider)
  : Result (option Plan) :=
  match ps with
  | [] => Ok None
  | provider :: rest =>
      match Detect provider os ctx with
      | Err _ => tryProviders os ctx rest
      | Ok detected =>
          if detected then
            match Plan_ provider os ctx with
            | Ok plan => Ok (Some plan)
            | Err e => Err e
            end
          else tryProviders os ctx rest
      end
  end.

Definition Detect_ (d : Detector) (os : OS) : Result (option Plan) :=
  let ctx := {| Path := Path (NewContext (path d));
                Env := loadRelevantEnvVars os |} in
  tryProviders os ctx (providers d).

End Detector.

(** ** Package version: the comparison of release tags *)

Module Version.

(** [fmt.Sscanf] with the verb d into a zeroed [n], as the function it is
    used as: [scan part] is the integer left in [n], zero when the scan
    fails. *)
Definition Scan : Type := string -> Z.

(** [parts[i]] scanned when [i < len(parts)], zero otherwise. *)
Definition partNum (scan : Scan) (parts : list string) (i : nat) : Z :=
  match nth_error parts i with
  | Some part => scan part
  | None => 0%Z
  end.

(** The loop of [isNewer] over the indices that are left. *)
Fixpoint newerFrom (scan : Scan) (latestParts currentParts : list string)
    (indices : list nat) : bool :=
  match indices with
  | [] => false
  | i :: rest =>
      let latestNum := partNum scan latestParts i in
      let currentNum := partNum scan currentParts i in
      if Z.ltb currentNum latestNum then true
      else if Z.ltb latestNum currentNum then false
      else newerFrom scan latestParts currentParts rest
  end.

Definition isNewer (scan : Scan) (latest current : string) : bool :=
  let latest := TrimPrefix latest "v" in
  let current := TrimPrefix current "v" in
  newerFrom scan (Split latest "."%char) (Split current "."%char) [0; 1; 2].

End Version.

(** * Notions the statements below are written with *)

Module Notions.
Import App Node Detector Filepath.

(** A provider detects when its [Detect] returns true without error. *)
Definition detects (os : OS) (ctx : Context) (p : Provider) : bool :=
  match Detect p os ctx with
  | Ok true => true
  | _ => false
  end.

Definition planResult (os : OS) (ctx : Context) (p : Provider)
  : Result (option Plan) :=
  match Plan_ p os ctx with
  | Ok plan => Ok (Some plan)
  | Err e => Err e
  end.

Definition detectContext (d : Detector) (os : OS) : Context :=
  {| Path := path d; Env := loadRelevantEnvVars os |}.

Definition puppeteerPackages : list string := "chromium" :: browserLibraries.

(** The catalog is the four entries up to puppeteer followed by the
    entries after it. *)
Definition catalogTail : list NativeDependency := skipn 4 NativeDependencies.


(** The first string of the list that is not empty, [d] when all are. *)
Fixpoint firstNonEmpty (l : list string) (d : string) : string :=
  match l with
  | [] => d
  | v :: l' => if strEq v "" then firstNonEmpty l' d else v
  end.

(** The sources of steps 3 to 7 in their order. *)
Definition versionSources (os : OS) (ctx : Context) (pkg : option PackageJSON)
  : list string :=
  [ versionFromEngines pkg;
    versionFromFile os ctx ".nvmrc" parseVersionFile;
    versionFromFile os ctx ".node-version" parseVersionFile;
    versionFromFile os ctx ".tool-versions" (fun data => parseToolVersions data "nodejs");
    versionFromFile os ctx "mise.toml" parseMiseToml ].

(** The value of a version file begins with lts once it is trimmed, a
    leading v is dropped and letters are lowered. *)
Definition ltsAlias (content : string) : bool :=
  HasPrefix (ToLower (TrimPrefix (TrimSpace content) "v")) "lts".

Definition noOverride (ctx : Context) : Prop :=
  mapGet (Env ctx) "COOLPACK_NODE_VERSION" = ""
  /\ mapGet (Env ctx) "NODE_VERSION" = "".

(** The node a path leads to: every segment is looked up in the value
    node of the segment before it. *)
Fixpoint resolvePath (node : SNode) (source : string) (path : list string)
  : option SNode :=
  match path with
  | [] => Some node
  | segment :: rest =>
      match findPropertyObjectNode node source segment with
      | Some value => resolvePath value source rest
      | None => None
      end
  end.

(** No byte of the string is the separator. *)
Fixpoint sepFree (c : ascii) (s : string) : bool :=
  match s with
  | EmptyString => true
  | String d s' => negb (Ascii.eqb d c) && sepFree c s'
  end.

(** The elements [Clean] keeps when it meets no [..]. *)
Definition keep (e : string) : bool := negb (strEq e "" || strEq e ".").

Definition nonEmpty (e : string) : bool := negb (strEq e "").

(** A path element as [Clean] leaves it: not empty and without a
    separator. *)
Definition element (e : string) : Prop :=
  sepFree sep e = true /\ nonEmpty e = true.

(** The nodes of a tree in pre-order. *)
Fixpoint preorder (node : SNode) : list SNode :=
  node ::
  (fix children (l : list SNode) : list SNode :=
     match l with
     | [] => []
     | child :: l' => preorder child ++ children l'
     end) (Children node).

(** The first element of the list on which [f] has a value. *)
Fixpoint firstSome {A B : Type} (f : A -> option B) (l : list A) : option B :=
  match l with
  | [] => None
  | x :: l' =>
      match f x with
      | Some y => Some y
      | None => firstSome f l'
      end
  end.

(** The member names [parse] reads. *)
Definition memberNames : list string :=
  ["provider"; "language"; "language_version"; "framework"; "framework_version";
   "package_manager"; "package_manager_version"; "install_command";
   "build_command"; "start_command"; "detected_files"; "metadata"; "build_env";
   "env"].

(** The members decoded as strings. *)
Definition stringMembers : list string :=
  ["provider"; "language"; "language_version"; "framework"; "framework_version";
   "package_manager"; "package_manager_version"; "install_command";
   "build_command"; "start_command"].

(** The names the lock-file step looks for. *)
Definition lockFileNames : list string :=
  ["pnpm-lock.yaml"; "bun.lockb"; "bun.lock"; ".yarnrc.yml"; ".yarnrc.yaml";
   "yarn.lock"; "package-lock.json"].

(** The three numbers [isNewer] compares. *)
Definition versionTriple (scan : Version.Scan) (v : string) : Z * Z * Z :=
  let parts := Split (TrimPrefix v "v") "."%char in
  (Version.partNum scan parts 0, Version.partNum scan parts 1,
   Version.partNum scan parts 2).

(** The strict lexicographic order on triples. *)
Definition tripleLt (a b : Z * Z * Z) : Prop :=
  let '(a0, a1, a2) := a in
  let '(b0, b1, b2) := b in
  (a0 < b0 \/ (a0 = b0 /\ (a1 < b1 \/ (a1 = b1 /\ a2 < b2))))%Z.

(** Every byte, and some byte, of a string satisfies [p]. *)
Fixpoint allBytes (p : ascii -> bool) (s : string) : bool :=
  match s with
  | EmptyString => true
  | String c s' => p c && allBytes p s'
  end.

Fixpoint someByte (p : ascii -> bool) (s : string) : bool :=
  match s with
  | EmptyString => false
  | String c s' => p c || someByte p s'
  end.

(** A byte below 128. *)
Definition isAsciiByte (c : ascii) : bool := Nat.ltb (nat_of_ascii c) 128.

(** [p] occurs in [s] at some position. *)
Fixpoint occurs (p s : string) : bool :=
  HasPrefix s p
  || match s with
     | EmptyString => false
     | String _ s' => occurs p s'
     end.







(** The text of a packageManager field: a name, an at sign, a version
    and, after a plus sign, an optional build hash. *)
Definition fieldText (name version : string) (hash : option string) : string :=
  name ++ String "@" (version ++ match hash with
                                 | Some h => String "+" h
                                 | None => ""
                                 end).

(** A version of Yarn 2 or later: its first byte is one of the digits 2
    to 9. *)
Definition berryVersion (version : string) : bool :=
  match version with
  | EmptyString => false
  | String c _ =>
      existsb (Ascii.eqb c)
        ["2"; "3"; "4"; "5"; "6"; "7"; "8"; "9"]%char
  end.

(** The lock files and the package manager each of them stands for, in
    the order in which they are looked for. *)
Definition lockFileTable : list (string * PackageManager) :=
  [ ("pnpm-lock.yaml", PackageManagerPNPM);
    ("bun.lockb", PackageManagerBun);
    ("bun.lock", PackageManagerBun);
    (".yarnrc.yml", PackageManagerYarnBerry);
    (".yarnrc.yaml", PackageManagerYarnBerry);
    ("yarn.lock", PackageManagerYarn1);
    ("package-lock.json", PackageManagerNPM) ].






End Notions.

(** * Fixtures: concrete projects used by the examples below *)

Module Fixtures.
Import App Node Detector.

(** An operating system whose files are the keys of [files] and whose
    environment is [env]. *)
Definition osOf (files : gmap string string) (env : gmap string string) : OS :=
  {| Stat := fun p => bool_decide (is_Some (files !! p));
     OsReadFile := fun p => files !! p;
     Glob := fun _ => Some [];
     Getenv := fun k => mapGet env k |}.

Definition noEngines : Engines := mkEngines "" "" "" "" "".

Definition emptyPkg : PackageJSON :=
  mkPackageJSON "" "" "" "" ∅ ∅ ∅ noEngines "" [] [].

Definition withPackageManager (pkg : PackageJSON) (pm : string) : PackageJSON :=
  mkPackageJSON (pkg_Name pkg) (pkg_Version pkg) (pkg_Main pkg) (pkg_Type pkg)
    (pkg_Scripts pkg) (pkg_Dependencies pkg) (pkg_DevDependencies pkg)
    (pkg_Engines pkg) pm (pkg_Workspaces pkg) (pkg_CacheDirectories pkg).

Definition withEngines (pkg : PackageJSON) (e : Engines) : PackageJSON :=
  mkPackageJSON (pkg_Name pkg) (pkg_Version pkg) (pkg_Main pkg) (pkg_Type pkg)
    (pkg_Scripts pkg) (pkg_Dependencies pkg) (pkg_DevDependencies pkg)
    e (pkg_PackageManager pkg) (pkg_Workspaces pkg) (pkg_CacheDirectories pkg).

Definition withMain (pkg : PackageJSON) (main : string) : PackageJSON :=
  mkPackageJSON (pkg_Name pkg) (pkg_Version pkg) main (pkg_Type pkg)
    (pkg_Scripts pkg) (pkg_Dependencies pkg) (pkg_DevDependencies pkg)
    (pkg_Engines pkg) (pkg_PackageManager pkg) (pkg_Workspaces pkg)
    (pkg_CacheDirectories pkg).

Definition withDependencies (pkg : PackageJSON) (deps : gmap string string)
  : PackageJSON :=
  mkPackageJSON (pkg_Name pkg) (pkg_Version pkg) (pkg_Main pkg) (pkg_Type pkg)
    (pkg_Scripts pkg) deps (pkg_DevDependencies pkg)
    (pkg_Engines pkg) (pkg_PackageManager pkg) (pkg_Workspaces pkg)
    (pkg_CacheDirectories pkg).

Definition appCtx : Context := NewContext "/app".

(** A machine with an /etc/passwd, a glob that finds it and the result
    of [filepath.Rel] for it. *)
Definition passwdOS : OS :=
  {| Stat := fun p => strEq p "/etc/passwd";
     OsReadFile := fun p => if strEq p "/etc/passwd" then Some "root:x:0:0" else None;
     Glob := fun pattern =>
               if strEq pattern "/etc/*" then Some ["/etc/passwd"] else Some [];
     Getenv := fun _ => "" |}.

Definition passwdRel (base target : string) : option string :=
  if strEq base "/app" && strEq target "/etc/passwd" then Some "../etc/passwd"
  else None.

Definition noParsers : Parsers :=
  {| ParseTS := fun _ => None; ParseJS := fun _ => None |}.

(** The tree tree-sitter builds for
    [export default { server: { preset: Q static Q } }], Q the double
    quote: anonymous tokens have their text as type. *)
Definition leaf (type : string) (startByte endByte : nat) : SNode :=
  mkNode type "" startByte endByte [].

Definition serverPresetSource : string :=
  "export default { server: { preset: " ++ DQ ++ "static" ++ DQ ++ " } }".

Definition serverPresetTree : SNode :=
  mkNode "program" "" 0 47
    [ mkNode "export_statement" "" 0 47
        [ leaf "export" 0 6;
          leaf "default" 7 14;
          mkNode "object" "value" 15 47
            [ leaf "{" 15 16;
              mkNode "pair" "" 17 45
                [ mkNode "property_identifier" "key" 17 23 [];
                  leaf ":" 23 24;
                  mkNode "object" "value" 25 45
                    [ leaf "{" 25 26;
                      mkNode "pair" "" 27 43
                        [ mkNode "property_identifier" "key" 27 33 [];
                          leaf ":" 33 34;
                          mkNode "string" "value" 35 43
                            [ leaf DQ 35 36;
                              leaf "string_fragment" 36 42;
                              leaf DQ 42 43 ] ];
                      leaf "}" 44 45 ] ];
              leaf "}" 46 47 ] ] ].

(** The trees for [export default { output: Q export Q }] and for
    [export default { }]. *)
Definition nextExportSource : string :=
  "export default { output: " ++ DQ ++ "export" ++ DQ ++ " }".

Definition nextExportTree : SNode :=
  mkNode "program" "" 0 35
    [ mkNode "export_statement" "" 0 35
        [ leaf "export" 0 6;
          leaf "default" 7 14;
          mkNode "object" "value" 15 35
            [ leaf "{" 15 16;
              mkNode "pair" "" 17 33
                [ mkNode "property_identifier" "key" 17 23 [];
                  leaf ":" 23 24;
                  mkNode "string" "value" 25 33
                    [ leaf DQ 25 26;
                      leaf "string_fragment" 26 32;
                      leaf DQ 32 33 ] ];
              leaf "}" 34 35 ] ] ].



(** The tree for
    [export default { images: { output: Q x Q }, output: Q export Q }]:
    the object has the pair output: export as its second member, after a
    member whose value is an object with a pair named output of its
    own. *)
Definition nextNestedSource : string :=
  "export default { images: { output: " ++ DQ ++ "x" ++ DQ ++ " }, output: "
  ++ DQ ++ "export" ++ DQ ++ " }".

Definition nextNestedObject : SNode :=
  mkNode "object" "value" 15 60
    [ leaf "{" 15 16;
      mkNode "pair" "" 17 40
        [ mkNode "property_identifier" "key" 17 23 [];
          leaf ":" 23 24;
          mkNode "object" "value" 25 40
            [ leaf "{" 25 26;
              mkNode "pair" "" 27 38
                [ mkNode "property_identifier" "key" 27 33 [];
                  leaf ":" 33 34;
                  mkNode "string" "value" 35 38
                    [ leaf DQ 35 36;
                      leaf "string_fragment" 36 37;
                      leaf DQ 37 38 ] ];
              leaf "}" 39 40 ] ];
      leaf "," 40 41;
      mkNode "pair" "" 42 58
        [ mkNode "property_identifier" "key" 42 48 [];
          leaf ":" 48 49;
          mkNode "string" "value" 50 58
            [ leaf DQ 50 51;
              leaf "string_fragment" 51 57;
              leaf DQ 57 58 ] ];
      leaf "}" 59 60 ].

Definition nextNestedTree : SNode :=
  mkNode "program" "" 0 60
    [ mkNode "export_statement" "" 0 60
        [ leaf "export" 0 6;
          leaf "default" 7 14;
          nextNestedObject ] ].







(** A directory with a manifest only and one with a yarn.lock beside it;
    a manifest whose engines name pnpm. *)
Definition bareOS : OS := osOf {[ "/app/package.json" := "{}" ]} ∅.

Definition yarnLockOS : OS :=
  osOf {[ "/app/package.json" := "{}"; "/app/yarn.lock" := "" ]} ∅.

Definition enginesPkg : PackageJSON :=
  withEngines emptyPkg (mkEngines "" "" "" "9" "").

(** A manifest that depends on sharp, on puppeteer and on a package the
    catalog does not know. *)
Definition sharpPuppeteerPkg : PackageJSON :=
  withDependencies emptyPkg
    {[ "sharp" := "^0.33.0"; "puppeteer" := "^22.0.0"; "left-pad" := "1.3.0" ]}.


End Fixtures.

(** * Facts about the string helpers *)

Module StringFacts.

Lemma strEq_true (a b : string) : strEq a b = true <-> a = b.
Proof. unfold strEq. apply bool_decide_eq_true. Qed.

Lemma strEq_false (a b : string) : strEq a b = false <-> a <> b.
Proof. unfold strEq. apply bool_decide_eq_false. Qed.

Lemma strEq_refl (a : string) : strEq a a = true.
Proof. apply strEq_true. reflexivity. Qed.

End StringFacts.

(** * The orchestrator *)

Module OrchestratorProps.
Import Notions App Node Detector Fixtures.

Lemma tryProviders_find (os : OS) (ctx : Context) (ps : list Provider) :
  tryProviders os ctx ps =
  match List.find (detects os ctx) ps with
  | Some p => planResult os ctx p
  | None => Ok None
  end.
Proof.
  induction ps as [|p rest IH]; [reflexivity|].
  cbn [tryProviders List.find]. unfold detects at 1.
  destruct (Detect p os ctx) as [[|]|msg]; [reflexivity| |]; exact IH.
Qed.

Lemma tryProviders_skip (os : OS) (ctx : Context) (before after : list Provider) :
  forallb (fun p => negb (detects os ctx p)) before = true ->
  tryProviders os ctx (before ++ after) = tryProviders os ctx after.
Proof.
  induction before as [|p rest IH]; [reflexivity|].
  cbn [forallb app tryProviders]. unfold detects at 1.
  intros H. apply andb_prop in H as [Hp Hrest].
  destruct (Detect p os ctx) as [[|]|msg]; [discriminate| |]; auto.
Qed.

(** C8. The orchestrator walks the providers in registration order and
    returns what the plan of the first provider whose detect answers true
    returns; a provider whose detect fails is passed over like one that
    answers false; when no provider detects, the result is no plan and no
    error, which is what the registered providers give on a directory
    without a package.json. *)
Theorem detect_first_matching_provider (d : Detector) (os : OS) :
  let ctx := detectContext d os in
  Detect_ d os =
    match List.find (detects os ctx) (providers d) with
    | Some p => planResult os ctx p
    | None => Ok None
    end
  /\ (forall before p after,
        providers d = before ++ p :: after ->
        forallb (fun q => negb (detects os ctx q)) before = true ->
        Detect p os ctx = Ok true ->
        Detect_ d os = planResult os ctx p)
  /\ (forall p rest msg,
        Detect p os ctx = Err msg ->
        tryProviders os ctx (p :: rest) = tryProviders os ctx rest)
  /\ (forallb (fun q => negb (detects os ctx q)) (providers d) = true ->
      Detect_ d os = Ok None)
  /\ (forall unmarshal ps root,
        HasFile os (detectContext (New unmarshal ps root) os) "package.json" = false ->
        Detect_ (New unmarshal ps root) os = Ok None).
Proof.
  intros ctx. unfold Detect_. change (Path (NewContext (path d))) with (path d).
  fold (detectContext d os). fold ctx.
  split; [apply tryProviders_find|].
  split.
  { intros before p after Hps Hbefore Hp. rewrite Hps.
    rewrite (tryProviders_skip _ _ _ _ Hbefore).
    cbn [tryProviders]. rewrite Hp. reflexivity. }
  split.
  { intros p rest msg Hp. cbn [tryProviders]. rewrite Hp. reflexivity. }
  split.
  { intros Hnone.
    rewrite <- (app_nil_r (providers d)).
    rewrite (tryProviders_skip _ _ _ _ Hnone). reflexivity. }
  intros unmarshal ps root Hfile. unfold Detect_.
  change (Path (NewContext (path (New unmarshal ps root))))
    with (path (New unmarshal ps root)).
  fold (detectContext (New unmarshal ps root) os).
  cbn [New registerProviders providers app tryProviders nodeProvider Detect Plan_].
  unfold Provider_Detect. rewrite Hfile. reflexivity.
Qed.

(** A directory that holds only a README: no plan, no error. *)
Example detect_no_manifest :
  Detect_ (New (fun _ => None) noParsers "/app")
          (osOf {[ "/app/README.md" := "hello" ]} ∅) = Ok None.
Proof. vm_compute. reflexivity. Qed.

End OrchestratorProps.

(** * The provider: language and start command *)

Module ProviderProps.
Import App Node Fixtures.

(** C10. When the manifest reads and parses, the provider returns a plan;
    with bun as the detected package manager its language is bun and its
    language version is the version of the package manager, or latest
    when that is empty, whatever the Node version resolver found; with
    any other package manager the language is nodejs and the language
    version is the resolved Node version. *)
Theorem plan_language (unmarshal : Unmarshal) (ps : Parsers) (os : OS)
    (ctx : Context) (pkgData : string) (pkg : PackageJSON) :
  ReadFile os ctx "package.json" = Some pkgData ->
  unmarshal pkgData = Some pkg ->
  exists plan,
    Provider_Plan unmarshal ps os ctx = Ok plan
    /\ (pm_Name (DetectPackageManager os ctx pkg) = PackageManagerBun ->
        Language plan = "bun"
        /\ LanguageVersion plan =
             (if strEq (pm_Version (DetectPackageManager os ctx pkg)) ""
              then "latest"
              else pm_Version (DetectPackageManager os ctx pkg)))
    /\ (pm_Name (DetectPackageManager os ctx pkg) <> PackageManagerBun ->
        Language plan = "nodejs"
        /\ LanguageVersion plan = DetectNodeVersion os ctx (Some pkg)).
Proof.
  intros Hread Hparse. unfold Provider_Plan, ParsePackageJSON.
  rewrite Hread, Hparse. cbv zeta.
  unfold languageOf.
  destruct (pm_Name (DetectPackageManager os ctx pkg)) eqn:Hname;
    (eexists; split; [reflexivity|]; cbn [Language LanguageVersion];
     split; [intros Hb | intros Hb]; try discriminate; try (contradiction Hb; reflexivity);
     split; try reflexivity).
  destruct (strEq (pm_Version (DetectPackageManager os ctx pkg)) ""); reflexivity.
Qed.

(** A bun project with an .nvmrc: the Node version is discarded. *)
Lemma plan_language_witness :
  let os := osOf {[ "/app/package.json" := "{}"; "/app/bun.lockb" := "";
                    "/app/.nvmrc" := "18" ]} ∅ in
  exists plan,
    Provider_Plan (fun _ => Some emptyPkg) noParsers os appCtx = Ok plan
    /\ Language plan = "bun" /\ LanguageVersion plan = "latest"
    /\ DetectNodeVersion os appCtx (Some emptyPkg) = "18".
Proof.
  cbv zeta.
  destruct (plan_language (fun _ => Some emptyPkg) noParsers
              (osOf {[ "/app/package.json" := "{}"; "/app/bun.lockb" := "";
                       "/app/.nvmrc" := "18" ]} ∅) appCtx "{}" emptyPkg)
    as [plan [Hplan [Hbun _]]]; [vm_compute; reflexivity | reflexivity |].
  exists plan. split; [exact Hplan|].
  destruct (Hbun ltac:(vm_compute; reflexivity)) as [Hl Hv].
  split; [exact Hl|]. split; [rewrite Hv; vm_compute; reflexivity|].
  vm_compute. reflexivity.
Defined.

Lemma no_entry_point_without_main (pkg : PackageJSON) :
  pkg_Main pkg = "" -> List.find (hasEntryPoint pkg) entryPoints = None.
Proof.
  intros Hmain. unfold hasEntryPoint. rewrite Hmain. vm_compute. reflexivity.
Qed.

(** C9, as the code has it. The start command is, in this order: the
    start script, the serve script, the default of the framework, node
    applied to a non-empty main field, and otherwise empty. The probe of
    the candidate entry points compares each candidate with the main
    field only, which is empty when the probe is reached, so it never
    selects one; no file is looked at. The function has no error result. *)
Theorem start_command_precedence (pkg : PackageJSON) (pm : PackageManagerInfo)
    (fw : FrameworkInfo) :
  determineStartCommand pkg pm fw =
    (if HasScript pkg "start" then GetRunCommand pm ++ " start"
     else if HasScript pkg "serve" then GetRunCommand pm ++ " serve"
     else if negb (strEq (GetDefaultStartCommand fw pm) "")
       then GetDefaultStartCommand fw pm
     else if negb (strEq (pkg_Main pkg) "") then "node " ++ pkg_Main pkg
     else "")%string.
Proof.
  unfold determineStartCommand. cbv zeta.
  destruct (HasScript pkg "start"); [reflexivity|].
  destruct (HasScript pkg "serve"); [reflexivity|].
  destruct (negb (strEq (GetDefaultStartCommand fw pm) "")); [reflexivity|].
  destruct (strEq (pkg_Main pkg) "") eqn:Hmain; cbn [negb]; [|reflexivity].
  apply bool_decide_eq_true in Hmain.
  rewrite (no_entry_point_without_main pkg Hmain). reflexivity.
Qed.

(** Two projects on which the claim fails. The first declares a main
    field that is none of the candidates: no candidate matches, and the
    start command is not empty. The second has an index.js in its
    directory and no main field: the start command of its plan is
    empty. *)
Lemma start_command_counterexample :
  let pkg := withMain emptyPkg "src/server.js" in
  let pm := mkPM PackageManagerNPM "" in
  let fw := mkFW FrameworkNone "" OutputTypeNone in
  let os := osOf {[ "/app/package.json" := "{}"; "/app/index.js" := "" ]} ∅ in
  existsb (hasEntryPoint pkg) entryPoints = false
  /\ determineStartCommand pkg pm fw = "node src/server.js"
  /\ HasFile os appCtx "index.js" = true
  /\ match Provider_Plan (fun _ => Some emptyPkg) noParsers os appCtx with
     | Ok plan => StartCommand plan
     | Err _ => "error"
     end = "".
Proof. vm_compute. auto. Qed.

End ProviderProps.

(** * The native dependency mapper *)

Module NativeProps.
Import Notions App Node Fixtures StringFacts.

Lemma filter_filter_and {A : Type} (p q : A -> bool) (l : list A) :
  List.filter p (List.filter q l) = List.filter (fun y => q y && p y) l.
Proof.
  induction l as [|x l IH]; [reflexivity|].
  cbn [List.filter]. destruct (q x); cbn [List.filter andb]; rewrite IH; reflexivity.
Qed.

Lemma filter_comm {A : Type} (p q : A -> bool) (l : list A) :
  List.filter p (List.filter q l) = List.filter q (List.filter p l).
Proof.
  rewrite !filter_filter_and. apply List.filter_ext. intros y. apply andb_comm.
Qed.

Lemma firstSeen_filter (p : string -> bool) (l : list string) :
  firstSeen (List.filter p l) = List.filter p (firstSeen l).
Proof.
  induction l as [|x l IH]; [reflexivity|].
  cbn [List.filter firstSeen]. destruct (p x) eqn:Hp.
  - cbn [firstSeen List.filter]. rewrite ?Hp, IH. f_equal. apply filter_comm.
  - rewrite IH, filter_filter_and. apply List.filter_ext_in.
    intros y _. destruct (strEq y x) eqn:Hyx; cbn [negb andb]; [|reflexivity].
    apply strEq_true in Hyx. subst y. exact Hp.
Qed.

Lemma firstSeen_In (x : string) (l : list string) :
  In x (firstSeen l) <-> In x l.
Proof.
  induction l as [|y l IH]; [reflexivity|].
  cbn [firstSeen In]. rewrite List.filter_In, IH.
  destruct (strEq x y) eqn:Hxy.
  - apply strEq_true in Hxy. subst. cbn. tauto.
  - assert (y <> x) by (intros ->; rewrite strEq_refl in Hxy; discriminate).
    cbn. tauto.
Qed.

Lemma firstSeen_NoDup (l : list string) : List.NoDup (firstSeen l).
Proof.
  induction l as [|x l IH]; [constructor|].
  cbn [firstSeen]. constructor.
  - rewrite List.filter_In, strEq_refl. cbn. intros [_ H]. discriminate.
  - apply List.NoDup_filter. exact IH.
Qed.

Lemma firstSeen_app (a b : list string) :
  firstSeen (a ++ b) =
  firstSeen a ++ List.filter (fun y => negb (existsb (strEq y) a)) (firstSeen b).
Proof.
  induction a as [|x a IH].
  - cbn. symmetry. apply List.forallb_filter_id. apply forallb_forall. reflexivity.
  - cbn [app firstSeen]. rewrite IH, List.filter_app, filter_filter_and.
    cbn [app]. do 2 f_equal. apply List.filter_ext. intros y.
    cbn [existsb]. rewrite negb_orb. apply andb_comm.
Qed.

Lemma seenGet_insert (seen : gmap string bool) (x y : string) :
  seenGet (<[x := true]> seen) y = strEq y x || seenGet seen y.
Proof.
  unfold seenGet. destruct (strEq y x) eqn:Hyx.
  - apply strEq_true in Hyx. subst. rewrite lookup_insert_eq. reflexivity.
  - rewrite lookup_insert_ne; [reflexivity|].
    intros ->. rewrite strEq_refl in Hyx. discriminate.
Qed.

(** The inner loop: what is appended to [packages] is the first
    occurrences of the strings that [seen] does not hold yet. *)
Lemma fold_aptVisit (l : list string) :
  forall (seen : gmap string bool) (acc : list string),
    (fold_left aptVisit l (seen, acc)).2 =
    acc ++ firstSeen (List.filter (fun x => negb (seenGet seen x)) l).
Proof.
  induction l as [|x l IH]; intros seen acc.
  - cbn. rewrite app_nil_r. reflexivity.
  - cbn [fold_left List.filter]. unfold aptVisit at 2. cbn [fst snd].
    destruct (seenGet seen x) eqn:Hx; cbn [negb]; [apply IH|].
    rewrite IH, <- app_assoc. cbn [app firstSeen]. do 2 f_equal.
    rewrite <- firstSeen_filter, filter_filter_and. f_equal.
    apply List.filter_ext. intros y. rewrite seenGet_insert, negb_orb.
    apply andb_comm.
Qed.

Lemma fold_aptVisitDep (deps : list NativeDependency) :
  forall st : AptState,
    fold_left aptVisitDep deps st =
    fold_left aptVisit (concat (map AptPackages deps)) st.
Proof.
  induction deps as [|d deps IH]; intros st; [reflexivity|].
  cbn [fold_left map concat]. rewrite List.fold_left_app. apply IH.
Qed.

Lemma GetRequiredAptPackages_firstSeen (deps : list NativeDependency) :
  GetRequiredAptPackages deps = firstSeen (concat (map AptPackages deps)).
Proof.
  unfold GetRequiredAptPackages. rewrite fold_aptVisitDep, fold_aptVisit.
  cbn [app]. f_equal. apply List.forallb_filter_id. apply forallb_forall.
  intros x _. reflexivity.
Qed.

(** The catalog entries the manifest depends on, in the order of the
    catalog. *)
Lemma detected_In (pkg : PackageJSON) (dep : NativeDependency) :
  In dep (DetectNativeDependencies pkg) <->
  In dep NativeDependencies /\ HasDependency pkg (Package dep) = true.
Proof. unfold DetectNativeDependencies. apply List.filter_In. Qed.

Lemma filter_sublist {A : Type} (p : A -> bool) (l : list A) :
  sublist (List.filter p l) l.
Proof.
  induction l as [|x l IH]; [constructor|].
  cbn [List.filter]. destruct (p x); constructor; exact IH.
Qed.

Lemma In_concat_map {A B : Type} (f : A -> list B) (l : list A) (y : B) :
  In y (concat (map f l)) <-> exists x, In x l /\ In y (f x).
Proof.
  rewrite List.in_concat. split.
  - intros [ys [Hys Hy]]. apply List.in_map_iff in Hys as [x [<- Hx]]. eauto.
  - intros [x [Hx Hy]]. exists (f x). split; [apply List.in_map, Hx | exact Hy].
Qed.

Lemma detected_with_sharp_and_puppeteer (pkg : PackageJSON) :
  HasDependency pkg "sharp" = true ->
  HasDependency pkg "puppeteer" = true ->
  firstSeen (concat (map AptPackages (DetectNativeDependencies pkg))) =
  "libvips-dev"
  :: (if HasDependency pkg "@prisma/client" || HasDependency pkg "prisma"
      then ["openssl"] else [])
  ++ puppeteerPackages
  ++ List.filter (fun y => negb (existsb (strEq y) puppeteerPackages))
       (firstSeen (concat (map AptPackages
          (List.filter (fun dep => HasDependency pkg (Package dep)) catalogTail)))).
Proof.
  intros Hsharp Hpup. unfold DetectNativeDependencies.
  change NativeDependencies with (firstn 4 NativeDependencies ++ catalogTail).
  rewrite List.filter_app, List.map_app, List.concat_app, firstSeen_app.
  set (later := firstSeen (concat (map AptPackages
          (List.filter (fun dep => HasDependency pkg (Package dep)) catalogTail)))).
  assert (Hlater : forall y, In y later ->
            strEq y "libvips-dev" = false /\ strEq y "openssl" = false).
  { intros y Hy. unfold later in Hy. apply (proj1 (firstSeen_In _ _)) in Hy.
    apply In_concat_map in Hy as [dep [Hdep Hy]].
    apply List.filter_In in Hdep as [Hdep _].
    assert (Hall : Forall (fun dep => Forall (fun y =>
                      strEq y "libvips-dev" = false /\ strEq y "openssl" = false)
                      (AptPackages dep)) catalogTail).
    { vm_compute. repeat constructor. }
    rewrite List.Forall_forall in Hall. specialize (Hall dep Hdep).
    rewrite List.Forall_forall in Hall. exact (Hall y Hy). }
  cbn [firstn NativeDependencies List.filter Package].
  rewrite Hsharp, Hpup.
  assert (Hfilter : forall prefix,
            (forall y, existsb (strEq y) prefix = true ->
                       strEq y "libvips-dev" = true \/ strEq y "openssl" = true) ->
            List.filter (fun y => negb (existsb (strEq y) (prefix ++ puppeteerPackages)))
              later =
            List.filter (fun y => negb (existsb (strEq y) puppeteerPackages)) later).
  { intros prefix Hprefix. apply List.filter_ext_in. intros y Hy.
    rewrite List.existsb_app.
    destruct (existsb (strEq y) prefix) eqn:Hex; [|reflexivity].
    destruct (Hlater y Hy) as [H1 H2].
    destruct (Hprefix y Hex) as [H|H]; congruence. }
  destruct (HasDependency pkg "@prisma/client"), (HasDependency pkg "prisma");
    cbn [map concat AptPackages app orb];
    match goal with
    | |- firstSeen ?l ++ List.filter (fun y => negb (existsb (strEq y) ?l')) later = _ =>
        let prefix := eval cbv [app] in
          (firstn (length l - length puppeteerPackages) l) in
        change l' with (prefix ++ puppeteerPackages)
    end;
    (rewrite Hfilter;
     [ vm_compute firstSeen; reflexivity
     | intros y Hy; cbn [existsb] in Hy;
       repeat (apply orb_prop in Hy as [Hy|Hy]; [tauto|]); discriminate ]).
Qed.

(** C5. The mapper is a function of the catalog and of which catalog
    packages the manifest depends on. The entries it detects are the
    catalog entries whose package the manifest has as a dependency, in
    the order of the catalog; the result is their package lists
    flattened, every package kept at its first occurrence, so no
    package occurs twice and a package is in the result exactly when
    some detected entry lists it. For a manifest that depends on sharp
    and on puppeteer the list is libvips-dev, then openssl exactly when a
    prisma package is a dependency, then the whole puppeteer set in its
    order, then the packages of the later entries the manifest depends
    on that the puppeteer set does not hold; every package of the list
    occurs exactly once; and when sharp and puppeteer are the only
    catalog packages of the manifest the list is libvips-dev followed by
    the puppeteer set and nothing else. *)
Theorem native_packages_first_seen (pkg : PackageJSON) :
  (forall dep,
      In dep (DetectNativeDependencies pkg) <->
      In dep NativeDependencies /\ HasDependency pkg (Package dep) = true)
  /\ sublist (DetectNativeDependencies pkg) NativeDependencies
  /\ (forall deps,
        GetRequiredAptPackages deps = firstSeen (concat (map AptPackages deps)))
  /\ GetRequiredAptPackages (DetectNativeDependencies pkg) =
     firstSeen (concat (map AptPackages
       (List.filter (fun dep => HasDependency pkg (Package dep)) NativeDependencies)))
  /\ List.NoDup (GetRequiredAptPackages (DetectNativeDependencies pkg))
  /\ (forall x,
        In x (GetRequiredAptPackages (DetectNativeDependencies pkg)) <->
        exists dep, In dep NativeDependencies
                    /\ HasDependency pkg (Package dep) = true
                    /\ In x (AptPackages dep))
  /\ (forall pkg',
        (forall dep, In dep NativeDependencies ->
           HasDependency pkg' (Package dep) = HasDependency pkg (Package dep)) ->
        GetRequiredAptPackages (DetectNativeDependencies pkg') =
        GetRequiredAptPackages (DetectNativeDependencies pkg))
  /\ (HasDependency pkg "sharp" = true ->
      HasDependency pkg "puppeteer" = true ->
      GetRequiredAptPackages (DetectNativeDependencies pkg) =
        "libvips-dev"
        :: (if HasDependency pkg "@prisma/client" || HasDependency pkg "prisma"
            then ["openssl"] else [])
        ++ puppeteerPackages
        ++ List.filter (fun y => negb (existsb (strEq y) puppeteerPackages))
             (firstSeen (concat (map AptPackages
                (List.filter (fun dep => HasDependency pkg (Package dep))
                   catalogTail))))
      /\ (forall x,
            In x (GetRequiredAptPackages (DetectNativeDependencies pkg)) ->
            count_occ string_dec
              (GetRequiredAptPackages (DetectNativeDependencies pkg)) x = 1)
      /\ ((forall dep, In dep NativeDependencies ->
             Package dep <> "sharp" -> Package dep <> "puppeteer" ->
             HasDependency pkg (Package dep) = false) ->
          GetRequiredAptPackages (DetectNativeDependencies pkg) =
          "libvips-dev" :: puppeteerPackages)).
Proof.
  split; [apply detected_In|].
  split; [apply filter_sublist|].
  split; [apply GetRequiredAptPackages_firstSeen|].
  split; [apply GetRequiredAptPackages_firstSeen|].
  split; [rewrite GetRequiredAptPackages_firstSeen; apply firstSeen_NoDup|].
  split.
  { intros x. rewrite GetRequiredAptPackages_firstSeen, firstSeen_In, In_concat_map.
    split; intros [dep H]; exists dep.
    - destruct H as [Hdep Hx]. apply detected_In in Hdep. tauto.
    - destruct H as [Hdep [Hhas Hx]]. split; [apply detected_In; tauto | exact Hx]. }
  split.
  { intros pkg' Hsame. unfold DetectNativeDependencies. f_equal.
    apply List.filter_ext_in. intros dep Hdep. apply Hsame, Hdep. }
  intros Hsharp Hpup.
  split.
  { rewrite GetRequiredAptPackages_firstSeen.
    apply detected_with_sharp_and_puppeteer; assumption. }
  split.
  { apply NoDup_count_occ'. rewrite GetRequiredAptPackages_firstSeen.
    apply firstSeen_NoDup. }
  intros Honly. unfold DetectNativeDependencies.
  rewrite (List.filter_ext_in
             (fun dep => HasDependency pkg (Package dep))
             (fun dep => strEq (Package dep) "sharp" || strEq (Package dep) "puppeteer")).
  - vm_compute. reflexivity.
  - intros dep Hdep.
    destruct (strEq (Package dep) "sharp") eqn:H1.
    { apply strEq_true in H1. rewrite H1. exact Hsharp. }
    destruct (strEq (Package dep) "puppeteer") eqn:H2.
    { apply strEq_true in H2. rewrite H2. exact Hpup. }
    apply strEq_false in H1, H2. apply Honly; assumption.
Qed.

(** The manifest of the specification. *)
Lemma native_packages_first_seen_witness :
  GetRequiredAptPackages (DetectNativeDependencies sharpPuppeteerPkg)
  = "libvips-dev" :: puppeteerPackages.
Proof.
  destruct (native_packages_first_seen sharpPuppeteerPkg)
    as (_ & _ & _ & _ & _ & _ & _ & Hboth).
  destruct Hboth as (_ & _ & Honly); [vm_compute; reflexivity ..|].
  apply Honly. intros dep Hdep Hsharp Hpup.
  unfold NativeDependencies in Hdep. cbn [In] in Hdep.
  repeat (destruct Hdep as [<- | Hdep]); [..|contradiction];
    cbn [Package] in *; try contradiction; vm_compute; reflexivity.
Defined.

(** The manifest of the specification: sharp and puppeteer, nothing else
    of the catalog; and the same with prisma and bcrypt. *)
Example sharp_and_puppeteer :
  GetRequiredAptPackages
    (DetectNativeDependencies
       (withDependencies emptyPkg
          {[ "sharp" := "^0.33.0"; "puppeteer" := "^22.0.0"; "left-pad" := "1.3.0" ]}))
  = "libvips-dev" :: "chromium" :: browserLibraries
  /\ GetRequiredAptPackages
       (DetectNativeDependencies
          (withDependencies emptyPkg
             {[ "sharp" := "^0.33.0"; "puppeteer" := "^22.0.0";
                "prisma" := "^5.0.0"; "bcrypt" := "^5.1.0" ]}))
     = "libvips-dev" :: "openssl" :: "chromium" :: browserLibraries
       ++ ["build-essential"; "python3"].
Proof. vm_compute. split; reflexivity. Qed.

End NativeProps.

(** * The wire format of the plan *)

Module WireProps.
Import Notions App Fixtures StringFacts.









(** ** The coercion to valid UTF-8 *)












(** ** What the decoder reads from a serialized plan *)

































(** A plan of valid strings, with metadata and an environment, comes
    back as it is. *)
Example plan_round_trip_valid :
  let p := mkPlan "node" "nodejs" "24" "nextjs" "14.1.0" "pnpm" "8.6.0"
             "pnpm install --frozen-lockfile" "pnpm build" ""
             ["package.json"; "pnpm-lock.yaml"]
             {[ "output_type" := JString "static";
                "native_packages" := JArray [JString "libvips-dev"] ]}
             {[ "NODE_ENV" := "production" ]} ∅ in
  parse (serialize p) = Some p
  /\ serialize p !! "start_command" = None.
Proof. vm_compute. split; reflexivity. Qed.

(** Two keys of an environment map that differ in an invalid byte are
    written with the same key; the decoder keeps the value of the greater
    key. A valid three-byte encoding is kept, a lone continuation byte is
    not. *)
Example coerced_strings :
  encodeStrings {[ ("A" ++ bytes [254])%string := "first";
                   ("A" ++ bytes [255])%string := "second" ]}
  = {[ ("A" ++ replacementChar)%string := "second" ]}
  /\ coerceUTF8 (bytes [226; 130; 172]) = bytes [226; 130; 172]
  /\ coerceUTF8 (bytes [65; 130; 66]) = bytes [65; 239; 191; 189; 66]
  /\ coerceUTF8 (bytes [226; 130]) = bytes [239; 191; 189; 239; 191; 189].
Proof. vm_compute. repeat split; reflexivity. Qed.


End WireProps.

(** * The runtime version resolver *)

Module VersionProps.
Import Notions App Node Fixtures StringFacts.

Lemma orElse_empty (next : string) : orElse "" next = next.
Proof. reflexivity. Qed.

Lemma orElse_value (v next : string) : v <> "" -> orElse v next = v.
Proof.
  intros Hv. unfold orElse. apply strEq_false in Hv. rewrite Hv. reflexivity.
Qed.

Lemma orElse_firstNonEmpty (v : string) (l : list string) (d : string) :
  orElse v (firstNonEmpty l d) = firstNonEmpty (v :: l) d.
Proof. unfold orElse. cbn [firstNonEmpty]. destruct (strEq v ""); reflexivity. Qed.

Lemma DetectNodeVersion_sources (os : OS) (ctx : Context)
    (pkg : option PackageJSON) :
  noOverride ctx ->
  DetectNodeVersion os ctx pkg =
  firstNonEmpty (versionSources os ctx pkg) DefaultNodeVersion.
Proof.
  intros [Ha Hb]. unfold DetectNodeVersion. rewrite Ha, Hb. cbn [strEq negb].
  change (negb (strEq "" "")) with false. cbv iota.
  unfold versionSources.
  rewrite <- !orElse_firstNonEmpty. reflexivity.
Qed.

Lemma versionFromFile_read (os : OS) (ctx : Context) (name data : string)
    (parse : string -> string) :
  HasFile os ctx name = true -> ReadFile os ctx name = Some data ->
  versionFromFile os ctx name parse = parse data.
Proof. intros Hf Hr. unfold versionFromFile. rewrite Hf, Hr. reflexivity. Qed.

Lemma versionFromFile_absent (os : OS) (ctx : Context) (name : string)
    (parse : string -> string) :
  HasFile os ctx name = false -> versionFromFile os ctx name parse = "".
Proof. intros Hf. unfold versionFromFile. rewrite Hf. reflexivity. Qed.

Lemma parseVersionFile_lts (content : string) :
  ltsAlias content = true -> parseVersionFile content = DefaultNodeVersion.
Proof. unfold ltsAlias, parseVersionFile. intros ->. reflexivity. Qed.

(** C3, as the code has it. A set override variable wins with its value
    trimmed and stripped of a leading v; otherwise the first of engines,
    .nvmrc, .node-version, .tool-versions and mise.toml that yields a
    version wins, and the default 24 is the result when none does. An
    .nvmrc holding v18.2.0 and a line feed gives 18.2.0; engines.node
    >=18 <21 gives 18. A value of .nvmrc or of .node-version that begins
    with lts, in any case, after trimming and dropping a leading v gives
    the default version. *)
Theorem node_version_cascade (os : OS) (ctx : Context) (pkg : option PackageJSON) :
  (mapGet (Env ctx) "COOLPACK_NODE_VERSION" <> "" ->
     DetectNodeVersion os ctx pkg =
     normalizeVersion (mapGet (Env ctx) "COOLPACK_NODE_VERSION"))
  /\ (mapGet (Env ctx) "COOLPACK_NODE_VERSION" = "" ->
      mapGet (Env ctx) "NODE_VERSION" <> "" ->
      DetectNodeVersion os ctx pkg =
      normalizeVersion (mapGet (Env ctx) "NODE_VERSION"))
  /\ (noOverride ctx ->
      DetectNodeVersion os ctx pkg =
      firstNonEmpty (versionSources os ctx pkg) DefaultNodeVersion)
  /\ (noOverride ctx -> versionFromEngines pkg = "" ->
      HasFile os ctx ".nvmrc" = true ->
      ReadFile os ctx ".nvmrc" = Some ("v18.2.0" ++ LF)%string ->
      DetectNodeVersion os ctx pkg = "18.2.0")
  /\ (forall p, noOverride ctx -> pkg = Some p ->
        eng_Node (pkg_Engines p) = ">=18 <21" ->
        DetectNodeVersion os ctx pkg = "18")
  /\ (noOverride ctx -> versionFromEngines pkg = "" ->
      HasFile os ctx ".nvmrc" = false -> HasFile os ctx ".node-version" = false ->
      HasFile os ctx ".tool-versions" = false -> HasFile os ctx "mise.toml" = false ->
      DetectNodeVersion os ctx pkg = DefaultNodeVersion
      /\ DefaultNodeVersion = "24")
  /\ (forall content, ltsAlias content = true ->
        parseVersionFile content = DefaultNodeVersion)
  /\ (forall content, noOverride ctx -> versionFromEngines pkg = "" ->
        HasFile os ctx ".nvmrc" = true ->
        ReadFile os ctx ".nvmrc" = Some content ->
        ltsAlias content = true ->
        DetectNodeVersion os ctx pkg = DefaultNodeVersion)
  /\ (forall content, noOverride ctx -> versionFromEngines pkg = "" ->
        versionFromFile os ctx ".nvmrc" parseVersionFile = "" ->
        HasFile os ctx ".node-version" = true ->
        ReadFile os ctx ".node-version" = Some content ->
        ltsAlias content = true ->
        DetectNodeVersion os ctx pkg = DefaultNodeVersion).
Proof.
  split.
  { intros Ha. unfold DetectNodeVersion. apply strEq_false in Ha.
    rewrite Ha. reflexivity. }
  split.
  { intros Ha Hb. unfold DetectNodeVersion. apply strEq_false in Hb.
    rewrite Ha, Hb. reflexivity. }
  split; [apply DetectNodeVersion_sources|].
  split.
  { intros Hno He Hf Hr. rewrite (DetectNodeVersion_sources _ _ _ Hno).
    unfold versionSources. rewrite He, (versionFromFile_read _ _ _ _ _ Hf Hr).
    vm_compute. reflexivity. }
  split.
  { intros p Hno -> Hp. rewrite (DetectNodeVersion_sources _ _ _ Hno).
    unfold versionSources, versionFromEngines. rewrite Hp.
    vm_compute. reflexivity. }
  split.
  { intros Hno He H1 H2 H3 H4. split; [|reflexivity].
    rewrite (DetectNodeVersion_sources _ _ _ Hno). unfold versionSources.
    rewrite He, !versionFromFile_absent by assumption. reflexivity. }
  split; [apply parseVersionFile_lts|].
  split.
  { intros content Hno He Hf Hr Hlts.
    rewrite (DetectNodeVersion_sources _ _ _ Hno). unfold versionSources.
    rewrite He, (versionFromFile_read _ _ _ _ _ Hf Hr),
      (parseVersionFile_lts _ Hlts). reflexivity. }
  intros content Hno He Hnvm Hf Hr Hlts.
  rewrite (DetectNodeVersion_sources _ _ _ Hno). unfold versionSources.
  rewrite He, Hnvm, (versionFromFile_read _ _ _ _ _ Hf Hr),
    (parseVersionFile_lts _ Hlts). reflexivity.
Qed.

(** The scenarios of the specification on concrete directories. *)
Example nvmrc_only :
  DetectNodeVersion (osOf {[ "/app/.nvmrc" := ("v18.2.0" ++ LF)%string ]} ∅)
    appCtx (Some emptyPkg) = "18.2.0".
Proof. vm_compute. reflexivity. Qed.

Example engines_only :
  DetectNodeVersion (osOf ∅ ∅) appCtx
    (Some (withEngines emptyPkg (mkEngines ">=18 <21" "" "" "" ""))) = "18".
Proof. vm_compute. reflexivity. Qed.

Example nvmrc_lts :
  DetectNodeVersion (osOf {[ "/app/.nvmrc" := (" vLTS/iron" ++ LF)%string ]} ∅)
    appCtx (Some emptyPkg) = "24".
Proof. vm_compute. reflexivity. Qed.

(** A .tool-versions file and a mise.toml file whose value is lts: they
    are the only signal, the value begins with lts, and the result is the
    value itself, not the default version. *)
Lemma node_version_counterexample :
  let tool := osOf {[ "/app/.tool-versions" := "nodejs lts" ]} ∅ in
  let mise :=
    osOf {[ "/app/mise.toml" := ("node = " ++ DQ ++ "lts" ++ DQ)%string ]} ∅ in
  ltsAlias "lts" = true
  /\ DetectNodeVersion tool appCtx (Some emptyPkg) = "lts"
  /\ DetectNodeVersion mise appCtx (Some emptyPkg) = "lts"
  /\ strEq "lts" DefaultNodeVersion = false.
Proof. vm_compute. auto. Qed.

End VersionProps.

(** * The syntax-tree property resolver and the framework classifier *)

Module ConfigProps.
Import Notions App Node Fixtures StringFacts.

Example fixture_texts :
  String.length serverPresetSource = 47
  /\ getNodeText serverPresetTree serverPresetSource = serverPresetSource
  /\ getNodeText (mkNode "string" "value" 35 43 []) serverPresetSource
     = (DQ ++ "static" ++ DQ)%string
  /\ getNodeText (mkNode "property_identifier" "key" 27 33 []) serverPresetSource
     = "preset"
  /\ String.length nextExportSource = 35
  /\ getNodeText nextExportTree nextExportSource = nextExportSource.
Proof. vm_compute. repeat split; reflexivity. Qed.

Lemma nested_failing_segment (source : string) (before : list string) :
  forall (node n : SNode) (segment : string) (after : list string),
    resolvePath node source before = Some n ->
    findPropertyObjectNode n source segment = None ->
    FindNestedPropertyValue (Some node) source (before ++ segment :: after) = "".
Proof.
  induction before as [|b bs IH]; intros node n segment after Hres Hfail.
  - cbn in Hres. injection Hres as <-. cbn [app FindNestedPropertyValue].
    rewrite Hfail. reflexivity.
  - cbn [resolvePath] in Hres. cbn [app FindNestedPropertyValue].
    destruct (findPropertyObjectNode node source b) as [value|]; [|discriminate].
    destruct (bs ++ segment :: after) as [|x rest] eqn:Hrest.
    + destruct bs; discriminate.
    + rewrite <- Hrest. eapply IH; eassumption.
Qed.

Lemma nested_resolved (source : string) (path : list string) :
  forall (node value : SNode),
    path <> [] ->
    resolvePath node source path = Some value ->
    FindNestedPropertyValue (Some node) source path =
    trimQuotes (getNodeText value source).
Proof.
  induction path as [|p0 rest IH]; intros node value Hne Hres; [contradiction|].
  cbn [resolvePath] in Hres. cbn [FindNestedPropertyValue].
  destruct (findPropertyObjectNode node source p0) as [obj|]; [|discriminate].
  destruct rest as [|p1 rest].
  - cbn in Hres. injection Hres as <-. reflexivity.
  - apply IH; [discriminate | exact Hres].
Qed.

(** C4. On the tree of the source of the specification the path server,
    preset gives static and the path server, missing gives the empty
    string, which is how the resolver says no value. In general the resolver
    looks up the first segment, takes its value node and goes on in that
    subtree with the rest of the path; when the segments before some
    segment resolve and that segment matches no pair in the subtree
    reached, the result is the empty string whatever follows; when all
    segments resolve, the result is the text of the last value node
    without its quotes. The resolver is a total function: it has no error
    result. *)
Theorem nested_property_resolution :
  FindNestedPropertyValue (Some serverPresetTree) serverPresetSource
    ["server"; "preset"] = "static"
  /\ FindNestedPropertyValue (Some serverPresetTree) serverPresetSource
       ["server"; "missing"] = ""
  /\ (forall (node n : SNode) (source : string) (before : list string)
             (segment : string) (after : list string),
        resolvePath node source before = Some n ->
        findPropertyObjectNode n source segment = None ->
        FindNestedPropertyValue (Some node) source (before ++ segment :: after) = "")
  /\ (forall (node value : SNode) (source : string) (path : list string),
        path <> [] ->
        resolvePath node source path = Some value ->
        FindNestedPropertyValue (Some node) source path =
        trimQuotes (getNodeText value source))
  /\ (forall (source : string) (path : list string),
        FindNestedPropertyValue None source path = "")
  /\ (forall (node : option SNode) (source : string),
        FindNestedPropertyValue node source [] = "").
Proof.
  split; [vm_compute; reflexivity|].
  split; [vm_compute; reflexivity|].
  split.
  { intros node n source before segment after.
    apply nested_failing_segment. }
  split.
  { intros node value source path. apply nested_resolved. }
  split; [intros source [|p0 rest]; reflexivity|].
  intros [node|] source; reflexivity.
Qed.




End ConfigProps.

(** * The evidence view and the root directory *)

Module PathProps.
Import Notions App Fixtures StringFacts.
Import Filepath.

Lemma Split_not_nil (s : string) (c : ascii) : Split s c <> [].
Proof.
  destruct s as [|d s]; cbn [Split]; [discriminate|].
  destruct (Ascii.eqb d c); [discriminate|].
  destruct (Split s c); discriminate.
Qed.

Lemma Split_app_sep (a b : string) (c : ascii) :
  Split (a ++ String c b) c = Split a c ++ Split b c.
Proof.
  induction a as [|d a IH].
  - simpl. rewrite Ascii.eqb_refl. reflexivity.
  - simpl. rewrite IH.
    destruct (Ascii.eqb d c); [reflexivity|].
    destruct (Split a c) as [|h t] eqn:Ha; [|reflexivity].
    exfalso. exact (Split_not_nil a c Ha).
Qed.

Lemma Split_sepFree (s : string) (c : ascii) :
  sepFree c s = true -> Split s c = [s].
Proof.
  induction s as [|d s IH]; [reflexivity|].
  cbn [sepFree Split]. intros H. apply andb_prop in H as [Hd Hs].
  apply negb_true_iff in Hd. rewrite Hd, (IH Hs). reflexivity.
Qed.

Lemma Split_pieces (s : string) (c : ascii) :
  Forall (fun e => sepFree c e = true) (Split s c).
Proof.
  induction s as [|d s IH]; [repeat constructor|].
  cbn [Split]. destruct (Ascii.eqb d c) eqn:Hd.
  - constructor; [reflexivity | exact IH].
  - destruct (Split s c) as [|h t].
    + repeat constructor. cbn [sepFree]. rewrite Hd. reflexivity.
    + inversion IH as [|? ? Hh Ht]; subst. constructor; [|exact Ht].
      cbn [sepFree]. rewrite Hd, Hh. reflexivity.
Qed.

Lemma Split_joinSep (K : list string) :
  K <> [] -> Forall (fun e => sepFree sep e = true) K ->
  Split (joinSep K) sep = K.
Proof.
  induction K as [|x K IH]; [contradiction|]. intros _ HK.
  inversion HK as [|? ? Hx HK']; subst.
  destruct K as [|y K].
  - cbn [joinSep]. apply Split_sepFree, Hx.
  - change (joinSep (x :: y :: K)) with (x ++ String sep (joinSep (y :: K)))%string.
    rewrite Split_app_sep, (Split_sepFree _ _ Hx), IH by (discriminate || exact HK').
    reflexivity.
Qed.

Lemma cleanElems_plain (rooted : bool) (l : list string) :
  forall stack,
    Forall (fun e => e <> "..") l ->
    cleanElems rooted l stack = rev (List.filter keep l) ++ stack.
Proof.
  induction l as [|e l IH]; intros stack Hl; [reflexivity|].
  inversion Hl as [|? ? He Hl']; subst.
  cbn [cleanElems List.filter]. unfold keep at 1.
  destruct (strEq e "" || strEq e "."); cbn [negb]; [apply IH, Hl'|].
  apply strEq_false in He. rewrite He, (IH _ Hl').
  cbn [rev]. rewrite <- app_assoc. reflexivity.
Qed.

Lemma keep_nonEmpty (l : list string) :
  List.filter nonEmpty (List.filter keep l) = List.filter keep l.
Proof.
  apply List.forallb_filter_id. apply forallb_forall. intros e He.
  apply List.filter_In in He as [_ He]. unfold keep in He. unfold nonEmpty.
  destruct (strEq e ""); [discriminate | reflexivity].
Qed.

Lemma elements_of_clean (K : list string) :
  Forall (fun e => sepFree sep e = true) K ->
  elements (String sep (joinSep (List.filter keep K))) = List.filter keep K.
Proof.
  intros HK. unfold elements. cbn [Split]. rewrite Ascii.eqb_refl.
  cbn [List.filter].
  destruct (List.filter keep K) as [|x K'] eqn:HK'; [reflexivity|].
  rewrite Split_joinSep.
  - rewrite <- HK'. apply keep_nonEmpty.
  - discriminate.
  - rewrite <- HK'. apply List.Forall_forall. intros e He.
    apply List.filter_In in He as [He _].
    rewrite List.Forall_forall in HK. apply HK, He.
Qed.

Lemma withinb_within (root p : string) :
  withinb root p = true <-> within root p.
Proof.
  unfold withinb, within. rewrite andb_true_iff, Bool.eqb_true_iff, bool_decide_eq_true.
  split; intros [Hr He]; (split; [exact Hr|]).
  - exists (drop (length (elements root)) (elements p)).
    rewrite <- He at 1. symmetry. apply take_drop.
  - destruct He as [tail ->]. apply take_app_length.
Qed.

Lemma cleanElems_app (rooted : bool) (a b : list string) :
  forall stack,
    cleanElems rooted (a ++ b) stack = cleanElems rooted b (cleanElems rooted a stack).
Proof.
  induction a as [|e a IH]; intros stack; [reflexivity|].
  cbn [app cleanElems].
  destruct (strEq e "" || strEq e "."); [apply IH|].
  destruct (strEq e ".."); [|apply IH].
  destruct stack as [|top under]; [destruct rooted; apply IH|].
  destruct (strEq top ".."); apply IH.
Qed.

Lemma cleanElems_elements (rooted : bool) (l : list string) :
  forall stack,
    Forall (fun e => sepFree sep e = true) l ->
    Forall element stack ->
    Forall element (cleanElems rooted l stack).
Proof.
  induction l as [|e l IH]; intros stack Hl Hstack; [exact Hstack|].
  inversion Hl as [|? ? He Hl']; subst.
  cbn [cleanElems].
  destruct (strEq e "" || strEq e ".") eqn:Hskip; [apply IH; assumption|].
  apply orb_false_elim in Hskip as [Hempty _].
  assert (Helem : element e) by (split; [exact He | unfold nonEmpty; rewrite Hempty; reflexivity]).
  destruct (strEq e "..").
  - destruct stack as [|top under].
    + destruct rooted; apply IH; try assumption. constructor; assumption.
    + destruct (strEq top "..").
      * apply IH; [assumption|]. constructor; assumption.
      * apply IH; [assumption|]. inversion Hstack; assumption.
  - apply IH; [assumption|]. constructor; assumption.
Qed.

Lemma elements_joined (K : list string) :
  Forall element K -> elements (String sep (joinSep K)) = K.
Proof.
  intros HK. unfold elements. cbn [Split]. rewrite Ascii.eqb_refl.
  cbn [List.filter].
  destruct K as [|x K']; [reflexivity|].
  rewrite Split_joinSep.
  - apply List.forallb_filter_id. apply forallb_forall. intros e He.
    rewrite List.Forall_forall in HK. exact (proj2 (HK e He)).
  - discriminate.
  - eapply List.Forall_impl; [|exact HK]. intros e He. exact (proj1 He).
Qed.

(** An argument without a [..] element stays below the root, whatever
    dot elements the absolute root is written with: the elements of the
    path handed to the operating system are those of the cleaned root
    followed by those of the argument. *)
Lemma resolve_within (ctx : Context) (name : string) :
  HasPrefix (Path ctx) "/" = true ->
  Forall (fun e => e <> "..") (Split name sep) ->
  within (Clean (Path ctx)) (resolve ctx name)
  /\ elements (resolve ctx name) =
     elements (Clean (Path ctx)) ++ List.filter keep (Split name sep).
Proof.
  intros Hroot Hname. unfold resolve, Join.
  destruct (Path ctx) as [|c root] eqn:Hpath; [discriminate|].
  cbn [HasPrefix] in Hroot.
  destruct (Ascii.eqb "/" c) eqn:Hc; [|discriminate].
  apply Ascii.eqb_eq in Hc. subst c.
  assert (H1 : strEq (String "/" root) "" = false)
    by (apply strEq_false; discriminate).
  rewrite H1. cbn [negb]. unfold Clean. rewrite H1.
  change (String "/" root ++ "/" ++ name)%string
    with (String "/" (root ++ String sep name))%string.
  assert (H2 : strEq (String "/" (root ++ String sep name)) "" = false)
    by (apply strEq_false; discriminate).
  rewrite H2. cbn [HasPrefix]. cbv zeta. rewrite Ascii.eqb_refl.
  change (String "/" (root ++ String sep name))%string
    with (String "/" root ++ String sep name)%string.
  rewrite Split_app_sep, cleanElems_app.
  set (stack := cleanElems true (Split (String "/" root) sep) []).
  assert (Hstack : Forall element stack).
  { apply cleanElems_elements; [apply Split_pieces | constructor]. }
  rewrite (cleanElems_plain true _ stack Hname), rev_app_distr, rev_involutive.
  change ("/" ++ joinSep ?x)%string with (String sep (joinSep x)).
  assert (Hkeep : Forall element (List.filter keep (Split name sep))).
  { apply List.Forall_forall. intros e He.
    apply List.filter_In in He as [He Hk]. split.
    - pose proof (Split_pieces name sep) as Hp.
      rewrite List.Forall_forall in Hp. apply Hp, He.
    - unfold keep in Hk. unfold nonEmpty.
      destruct (strEq e ""); [discriminate | reflexivity]. }
  assert (Hall : elements (String sep (joinSep (rev stack ++
                    List.filter keep (Split name sep)))) =
                 elements (String sep (joinSep (rev stack)))
                 ++ List.filter keep (Split name sep)).
  { rewrite !elements_joined; [reflexivity | |].
    - apply List.Forall_rev, Hstack.
    - apply Forall_app. split; [apply List.Forall_rev, Hstack | exact Hkeep]. }
  split; [|exact Hall].
  split; [cbn [HasPrefix]; rewrite Ascii.eqb_refl; reflexivity|].
  exists (List.filter keep (Split name sep)). exact Hall.
Qed.

(** C2, as the code has it. The three operations join their argument to
    the root with filepath.Join, which cleans the path lexically, and
    hand the result to the operating system; nothing compares the result
    with the root. An argument without a [..] element stays below the
    cleaned form of an absolute root: the elements of the path handed to
    the operating system are those of the cleaned root followed by the
    elements of the argument that are neither empty nor a dot. An
    argument whose [..] elements lead out of the root is not rejected. *)
Theorem evidence_paths_are_joined (rel : string -> string -> option string)
    (os : OS) (ctx : Context) (name : string) :
  HasFile os ctx name = Stat os (Filepath.Join (Path ctx) name)
  /\ ReadFile os ctx name = OsReadFile os (Filepath.Join (Path ctx) name)
  /\ ListFiles rel os ctx name =
     option_map (fun matches : list string => omap (rel (Path ctx)) matches)
       (Glob os (Filepath.Join (Path ctx) name))
  /\ (HasPrefix (Path ctx) "/" = true ->
      Forall (fun e => e <> "..") (Split name sep) ->
      within (Clean (Path ctx)) (resolve ctx name)
      /\ elements (resolve ctx name) =
         elements (Clean (Path ctx)) ++ List.filter keep (Split name sep)).
Proof.
  split; [reflexivity|]. split; [reflexivity|].
  split; [|apply resolve_within].
  unfold ListFiles, resolve. destruct (Glob os _); reflexivity.
Qed.

(** An argument that climbs out of /app: the path handed to the operating
    system is /etc/passwd, which is not below the root, and the three
    operations answer for that file. *)
Lemma evidence_escapes_root :
  resolve appCtx "../etc/passwd" = "/etc/passwd"
  /\ withinb (Path appCtx) (resolve appCtx "../etc/passwd") = false
  /\ HasFile passwdOS appCtx "../etc/passwd" = true
  /\ ReadFile passwdOS appCtx "../etc/passwd" = Some "root:x:0:0"
  /\ ListFiles passwdRel passwdOS appCtx "../etc/*" = Some ["../etc/passwd"]
  /\ Clean (Path appCtx) = Path appCtx.
Proof. vm_compute. repeat split; reflexivity. Qed.

(** A root written with a dot element and an argument with one: the path
    handed to the operating system lies below the cleaned root. *)
Lemma evidence_paths_are_joined_witness :
  within (Clean "/srv/./app") (resolve (NewContext "/srv/./app") "src/./index.js")
  /\ elements (resolve (NewContext "/srv/./app") "src/./index.js")
     = elements (Clean "/srv/./app") ++ ["src"; "index.js"].
Proof.
  destruct (evidence_paths_are_joined (fun _ _ => None) passwdOS
              (NewContext "/srv/./app") "src/./index.js")
    as (_ & _ & _ & Hwithin).
  apply Hwithin; [reflexivity|].
  vm_compute. repeat constructor; discriminate.
Defined.

(** Arguments that stay: below /app, and below a root written with a dot
    element, whose cleaned form is /srv/app. *)
Example safe_name_stays_within :
  resolve appCtx "src/./index.js" = "/app/src/index.js"
  /\ withinb (Path appCtx) (resolve appCtx "src/./index.js") = true
  /\ resolve (NewContext "/srv/./app") "index.js" = "/srv/app/index.js"
  /\ Clean "/srv/./app" = "/srv/app"
  /\ withinb (Clean "/srv/./app") (resolve (NewContext "/srv/./app") "index.js")
     = true.
Proof. vm_compute. repeat split; reflexivity. Qed.

End PathProps.

(** * Further properties of the syntax-tree resolver *)

Module ResolverProps.
Import Notions App Node Fixtures StringFacts.

(** Induction on a tree with the hypothesis for every child. *)
Fixpoint SNode_children_ind (P : SNode -> Prop)
    (step : forall t f s e ch, Forall P ch -> P (mkNode t f s e ch))
    (n : SNode) : P n :=
  match n with
  | mkNode t f s e ch =>
      step t f s e ch
        ((fix all (l : list SNode) : Forall P l :=
            match l with
            | [] => @List.Forall_nil SNode P
            | c :: l' =>
                @List.Forall_cons SNode P c l' (SNode_children_ind P step c) (all l')
            end) ch)
  end.

Lemma firstSome_app {A B : Type} (f : A -> option B) (a b : list A) :
  firstSome f (a ++ b) =
  match firstSome f a with
  | Some y => Some y
  | None => firstSome f b
  end.
Proof.
  induction a as [|x a IH]; [reflexivity|].
  cbn [app firstSome]. destruct (f x); [reflexivity | exact IH].
Qed.

(** The search for a property is the pre-order traversal of the tree that
    stops at the first pair whose key is the property name: the node it
    returns is the value of that pair, and no pair before it in pre-order
    matches. *)
Theorem findPropertyObjectNode_preorder (node : SNode) (source name : string) :
  findPropertyObjectNode node source name =
  firstSome (fun n => pairValue n source name) (preorder node).
Proof.
  induction node as [t f s e ch IH] using SNode_children_ind.
  cbn [findPropertyObjectNode preorder firstSome Children].
  destruct (pairValue (mkNode t f s e ch) source name); [reflexivity|].
  induction IH as [|c l Hc _ IHl]; [reflexivity|].
  rewrite firstSome_app, <- Hc.
  destruct (findPropertyObjectNode c source name); [reflexivity | exact IHl].
Qed.

Lemma lastChar_app (s : string) (c : ascii) :
  lastChar (s ++ String c "") = Some c.
Proof.
  induction s as [|d s IH]; [reflexivity|].
  simpl. destruct (s ++ String c "")%string eqn:Hs; [|exact IH].
  destruct s; discriminate.
Qed.

Lemma substring_prefix (s t : string) :
  substring 0 (String.length s) (s ++ t) = s.
Proof. induction s as [|c s IH]; simpl; [destruct t; reflexivity | rewrite IH; reflexivity]. Qed.

Lemma length_snoc (s : string) (c : ascii) :
  String.length (s ++ String c "") = S (String.length s).
Proof. induction s as [|d s IH]; simpl; [reflexivity | rewrite IH; reflexivity]. Qed.

Lemma trimQuotes_wrapped (q r : ascii) (s : string) :
  trimQuotes (String q (s ++ String r "")) =
  if (Ascii.eqb q dq && Ascii.eqb r dq) || (Ascii.eqb q sq && Ascii.eqb r sq)
  then s else String q (s ++ String r "").
Proof.
  unfold trimQuotes.
  assert (Hlast : lastChar (String q (s ++ String r "")) = Some r).
  { change (String q (s ++ String r ""))%string
      with ((String q s) ++ String r "")%string. apply lastChar_app. }
  rewrite Hlast. cbn [String.length]. rewrite length_snoc. cbn [Nat.leb].
  destruct ((Ascii.eqb q dq && Ascii.eqb r dq) || (Ascii.eqb q sq && Ascii.eqb r sq));
    [|reflexivity].
  cbn [substring]. replace (S (S (String.length s)) - 2) with (String.length s) by lia.
  apply substring_prefix.
Qed.

(** [trimQuotes] removes one pair of equal quotes around a text and
    nothing else: a text in double quotes or in single quotes loses
    exactly those two bytes, a text between two different quotes and a
    text shorter than two bytes are returned as they are. *)
Theorem trimQuotes_one_pair (s : string) :
  trimQuotes (String dq (s ++ String dq "")) = s
  /\ trimQuotes (String sq (s ++ String sq "")) = s
  /\ trimQuotes (String dq (s ++ String sq "")) = String dq (s ++ String sq "")
  /\ trimQuotes (String sq (s ++ String dq "")) = String sq (s ++ String dq "")
  /\ (String.length s < 2 -> trimQuotes s = s)
  /\ (forall c t, s = String c t -> Ascii.eqb c dq = false ->
        Ascii.eqb c sq = false -> trimQuotes s = s).
Proof.
  repeat split; try (rewrite trimQuotes_wrapped; reflexivity).
  - intros Hlen. unfold trimQuotes.
    destruct (Nat.leb 2 (String.length s)) eqn:H2; [|reflexivity].
    apply Nat.leb_le in H2. lia.
  - intros c t -> Hd Hs. unfold trimQuotes.
    destruct (Nat.leb 2 (String.length (String c t))); [|reflexivity].
    destruct (lastChar (String c t)); [|reflexivity].
    rewrite Hd, Hs. reflexivity.
Qed.

Lemma stripConstraint_head (v : string) :
  match stripConstraint v with
  | EmptyString => True
  | String c _ => isConstraintChar c = false /\ Ascii.eqb c " " = false
  end.
Proof.
  induction v as [|c v IH]; [exact I|].
  cbn [stripConstraint].
  destruct (isConstraintChar c || Ascii.eqb c " ") eqn:Hc; [exact IH|].
  apply orb_false_iff in Hc. exact Hc.
Qed.

(** [cleanVersion] is idempotent and its result never starts with one of
    the constraint characters ^ ~ > < =; a version that starts with none
    of them is returned unchanged, leading spaces included. *)
Theorem cleanVersion_idempotent (v : string) :
  cleanVersion (cleanVersion v) = cleanVersion v
  /\ (forall c r, cleanVersion v = String c r -> isConstraintChar c = false)
  /\ (forall c r, v = String c r -> isConstraintChar c = false ->
        cleanVersion v = v).
Proof.
  assert (Hhead : forall c r, cleanVersion v = String c r ->
                              isConstraintChar c = false).
  { intros c r. unfold cleanVersion. destruct v as [|d v']; [discriminate|].
    destruct (isConstraintChar d) eqn:Hd.
    - intros Hs. pose proof (stripConstraint_head (String d v')) as H.
      rewrite Hs in H. apply H.
    - intros [= <- <-]. exact Hd. }
  split; [|split; [exact Hhead|]].
  - destruct (cleanVersion v) as [|c r] eqn:Hv; [reflexivity|].
    unfold cleanVersion. rewrite (Hhead c r eq_refl). reflexivity.
  - intros c r -> Hc. unfold cleanVersion. rewrite Hc. reflexivity.
Qed.

End ResolverProps.

(** * Further properties of the manifest and the package manager *)

Module ManifestProps.
Import Notions App Node Fixtures StringFacts PathProps.

Lemma cutAcc_sepFree (c : ascii) (s : string) :
  forall cur, sepFree c s = true -> cutAcc c s cur = [revAcc cur s].
Proof.
  induction s as [|d s IH]; intros cur Hs; [reflexivity|].
  cbn [sepFree] in Hs. apply andb_prop in Hs as [Hd Hs].
  apply negb_true_iff in Hd. cbn [cutAcc]. rewrite Hd. apply IH, Hs.
Qed.

Lemma cutAcc_first (c : ascii) (a b : string) :
  forall cur, sepFree c a = true ->
    cutAcc c (a ++ String c b) cur = [revAcc cur a; b].
Proof.
  induction a as [|d a IH]; intros cur Ha.
  - simpl. rewrite Ascii.eqb_refl. reflexivity.
  - cbn [sepFree] in Ha. apply andb_prop in Ha as [Hd Ha].
    apply negb_true_iff in Hd. simpl. rewrite Hd. apply IH, Ha.
Qed.

Lemma strEq_cons_empty (c : ascii) (s t : string) :
  strEq (String c s ++ t) "" = false.
Proof. apply strEq_false. discriminate. Qed.

(** The packageManager field is read back as it is composed: a name
    without an at sign followed by an at sign, a version without a plus
    sign and an optional build hash gives that name and that version; a
    field without an at sign is a name with an empty version. What follows
    the first plus sign never reaches the version. *)
Theorem packageManager_field_parse (pkg : PackageJSON) (name version hash : string) :
  name <> "" -> sepFree "@" name = true -> sepFree "+" version = true ->
  GetPackageManagerInfo
    (withPackageManager pkg (name ++ String "@" (version ++ String "+" hash)))
    = (name, version)
  /\ GetPackageManagerInfo (withPackageManager pkg (name ++ String "@" version))
     = (name, version)
  /\ GetPackageManagerInfo (withPackageManager pkg name) = (name, "").
Proof.
  intros Hname Hat Hplus. unfold GetPackageManagerInfo, SplitN2.
  cbn [withPackageManager pkg_PackageManager].
  destruct name as [|c name]; [contradiction|].
  rewrite !strEq_cons_empty.
  assert (Hn : strEq (String c name) "" = false) by (apply strEq_false; discriminate).
  rewrite Hn, !cutAcc_first, cutAcc_sepFree by exact Hat.
  cbn [revAcc]. rewrite Split_app_sep, (Split_sepFree _ _ Hplus).
  repeat split; reflexivity.
Qed.

Lemma packageManager_field_parse_witness :
  GetPackageManagerInfo
    (withPackageManager emptyPkg "pnpm@8.6.0+sha256.abc+def") = ("pnpm", "8.6.0")
  /\ GetPackageManagerInfo (withPackageManager emptyPkg "pnpm@8.6.0")
     = ("pnpm", "8.6.0")
  /\ GetPackageManagerInfo (withPackageManager emptyPkg "pnpm") = ("pnpm", "").
Proof.
  apply (packageManager_field_parse emptyPkg "pnpm" "8.6.0" "sha256.abc+def");
    [discriminate | reflexivity | reflexivity].
Defined.

(** Detection from the lock file is the inverse of [GetLockFile] up to the
    flavour of yarn: in a directory whose only lock-file evidence is the
    lock file of a package manager, and without a packageManager field,
    the detected package manager has that lock file and that run
    command, and it is that package manager unless that one is Yarn
    Berry, for which yarn.lock alone gives classic Yarn. *)
Theorem lock_file_round_trip (os : OS) (ctx : Context) (pkg : PackageJSON)
    (pm : PackageManagerInfo) :
  fieldSignal pkg = None ->
  (forall f, In f lockFileNames -> HasFile os ctx f = strEq f (GetLockFile pm)) ->
  GetLockFile (DetectPackageManager os ctx pkg) = GetLockFile pm
  /\ GetRunCommand (DetectPackageManager os ctx pkg) = GetRunCommand pm
  /\ pm_Version (DetectPackageManager os ctx pkg) = ""
  /\ (pm_Name pm <> PackageManagerYarnBerry ->
      pm_Name (DetectPackageManager os ctx pkg) = pm_Name pm)
  /\ (pm_Name pm = PackageManagerYarnBerry ->
      pm_Name (DetectPackageManager os ctx pkg) = PackageManagerYarn1).
Proof.
  intros Hfield Hfiles. unfold DetectPackageManager, fromLockFiles.
  rewrite Hfield.
  rewrite !Hfiles by (unfold lockFileNames; cbn [In]; tauto).
  destruct pm as [[] v]; vm_compute; repeat split; try reflexivity;
    intros H; try reflexivity; try discriminate; contradiction H; reflexivity.
Qed.

Lemma lock_file_round_trip_witness :
  let os := osOf {[ "/app/yarn.lock" := "" ]} ∅ in
  GetLockFile (DetectPackageManager os appCtx emptyPkg) = "yarn.lock"
  /\ pm_Name (DetectPackageManager os appCtx emptyPkg) = PackageManagerYarn1.
Proof.
  cbv zeta.
  destruct (lock_file_round_trip (osOf {[ "/app/yarn.lock" := "" ]} ∅) appCtx
              emptyPkg (mkPM PackageManagerYarnBerry "3.6.0"))
    as (Hlock & _ & _ & _ & Hname).
  - reflexivity.
  - intros f Hin. unfold lockFileNames in Hin. cbn [In] in Hin.
    repeat (destruct Hin as [<- | Hin]); [..|contradiction];
      vm_compute; reflexivity.
  - split; [exact Hlock | apply Hname; reflexivity].
Defined.

(** A dependency is present by its key, whatever its version string: the
    version reported for an absent dependency is empty, a non-empty
    version is only reported for a present one, and the entry under
    dependencies wins over the one under devDependencies. *)
Theorem dependency_lookup (pkg : PackageJSON) (name : string) :
  (HasDependency pkg name = false -> GetDependencyVersion pkg name = "")
  /\ (GetDependencyVersion pkg name <> "" -> HasDependency pkg name = true)
  /\ (forall v, pkg_Dependencies pkg !! name = Some v ->
        HasDependency pkg name = true /\ GetDependencyVersion pkg name = v)
  /\ (forall v, pkg_Dependencies pkg !! name = None ->
        pkg_DevDependencies pkg !! name = Some v ->
        HasDependency pkg name = true /\ GetDependencyVersion pkg name = v)
  /\ (HasDependency pkg name = true <->
      is_Some (pkg_Dependencies pkg !! name)
      \/ is_Some (pkg_DevDependencies pkg !! name)).
Proof.
  unfold HasDependency, GetDependencyVersion.
  destruct (pkg_Dependencies pkg !! name) as [v|];
    destruct (pkg_DevDependencies pkg !! name) as [d|];
    repeat split; try discriminate; try congruence; try tauto;
    try (intros; eauto; fail);
    try (intros x [= <-]; split; reflexivity);
    try (intros [[x Hx]|[x Hx]]; discriminate).
  all: try (intros _ x [= <-]; split; reflexivity).
  all: try (intros; left; eauto).
  all: try (intros; right; eauto).
Qed.

End ManifestProps.

(** * Further properties of the runtime version resolver *)

Module VersionExtraProps.
Import Notions App Node Fixtures StringFacts PathProps VersionProps.

Lemma takeDigits_allDigits (s : string) : allBytes isDigit (takeDigits s) = true.
Proof.
  induction s as [|c s IH]; [reflexivity|].
  cbn [takeDigits]. destruct (isDigit c) eqn:Hc; [|reflexivity].
  cbn [allBytes]. rewrite Hc, IH. reflexivity.
Qed.

Lemma firstDigitRun_allDigits (s : string) :
  allBytes isDigit (firstDigitRun s) = true.
Proof.
  induction s as [|c s IH]; [reflexivity|].
  cbn [firstDigitRun]. destruct (isDigit c) eqn:Hc; [|exact IH].
  apply takeDigits_allDigits.
Qed.

Lemma firstDigitRun_empty (s : string) :
  firstDigitRun s = "" <-> someByte isDigit s = false.
Proof.
  induction s as [|c s IH]; [split; reflexivity|].
  cbn [firstDigitRun someByte]. destruct (isDigit c) eqn:Hc; cbn [orb]; [|exact IH].
  cbn [takeDigits]. rewrite Hc. split; discriminate.
Qed.

(** The version read from an engines constraint is a run of decimal
    digits, never a dotted version or a range operator, and it is empty
    exactly when the trimmed constraint holds no digit at all, in which
    case the engines field counts as no signal. *)
Theorem engine_version_digits (constraint : string) (p : PackageJSON) :
  allBytes isDigit (parseEngineVersion constraint) = true
  /\ (parseEngineVersion constraint = "" <->
      someByte isDigit (TrimSpace constraint) = false)
  /\ (versionFromEngines (Some p) = "" <->
      someByte isDigit (TrimSpace (eng_Node (pkg_Engines p))) = false).
Proof.
  split; [apply firstDigitRun_allDigits|].
  split; [apply firstDigitRun_empty|].
  unfold versionFromEngines.
  destruct (strEq (eng_Node (pkg_Engines p)) "") eqn:He; cbn [negb].
  - apply strEq_true in He. rewrite He. split; reflexivity.
  - apply firstDigitRun_empty.
Qed.

Example engine_version_examples :
  parseEngineVersion "^20.11.0" = "20"
  /\ parseEngineVersion "18.x" = "18"
  /\ parseEngineVersion "lts/*" = ""
  /\ parseEngineVersion ">= 16.13 || 18" = "16".
Proof. vm_compute. repeat split; reflexivity. Qed.

(** The .tool-versions file is read line by line and the first line
    that names the tool decides: a first line without a line feed in it
    gives its second field, normalised, when its first field is the tool
    and it has a second field, and otherwise the result is that of the
    rest of the file. *)
Theorem tool_versions_by_line (line rest tool : string) :
  sepFree lf line = true ->
  parseToolVersions (line ++ String lf rest) tool =
    match Fields (TrimSpace line) with
    | p0 :: p1 :: _ =>
        if strEq p0 tool then normalizeVersion p1
        else parseToolVersions rest tool
    | _ => parseToolVersions rest tool
    end.
Proof.
  intros Hline. unfold parseToolVersions.
  rewrite Split_app_sep, (Split_sepFree _ _ Hline).
  cbn [app toolVersionLines]. reflexivity.
Qed.

Lemma tool_versions_by_line_witness :
  parseToolVersions ("ruby 3.2.2" ++ String lf "nodejs v20.11.0") "nodejs"
  = "20.11.0".
Proof.
  rewrite (tool_versions_by_line "ruby 3.2.2" "nodejs v20.11.0" "nodejs");
    vm_compute; reflexivity.
Defined.

Lemma firstNonEmpty_value (l : list string) (d : string) :
  d <> "" -> firstNonEmpty l d <> "".
Proof.
  intros Hd. induction l as [|v l IH]; [exact Hd|].
  cbn [firstNonEmpty]. destruct (strEq v "") eqn:Hv; [exact IH|].
  apply strEq_false, Hv.
Qed.

(** Without an override variable the resolver always yields a version:
    the result is never the empty string, whatever the manifest and the
    version files hold. *)
Theorem node_version_never_empty (os : OS) (ctx : Context)
    (pkg : option PackageJSON) :
  noOverride ctx -> DetectNodeVersion os ctx pkg <> "".
Proof.
  intros Hno. rewrite (DetectNodeVersion_sources os ctx pkg Hno).
  apply firstNonEmpty_value. discriminate.
Qed.

Lemma node_version_never_empty_witness :
  strEq (DetectNodeVersion (osOf {[ "/app/.nvmrc" := "   " ]} ∅) appCtx
           (Some emptyPkg)) "" = false.
Proof.
  apply strEq_false. apply node_version_never_empty.
  split; reflexivity.
Defined.

End VersionExtraProps.

(** * Further properties of the framework classifier *)

Module FrameworkProps.
Import Notions App Node Fixtures StringFacts.

Definition hasFramework (fw : FrameworkInfo) : bool :=
  match fw_Name fw with FrameworkNone => false | _ => true end.

Definition hasOutputType (fw : FrameworkInfo) : bool :=
  match fw_OutputType fw with OutputTypeNone => false | _ => true end.

(** Walk down the decision list: the rule on top either applies, and the
    goal is about its result, or it does not, and the next rule is on
    top. *)
Ltac next_rule_of_list :=
  match goal with
  | |- context [hasFramework (if ?b then _ else _)] =>
      lazymatch goal with
      | |- hasFramework (if b then _ else _) = _ =>
          destruct b;
          [ cbn [hasFramework hasOutputType fw_Name fw_OutputType];
            unfold staticIf;
            repeat match goal with
                   | |- context [if ?c then _ else _] => destruct c
                   end;
            reflexivity
          | ]
      end
  end.

Lemma framework_output_type (ps : Parsers) (os : OS) (ctx : Context)
    (pkg : option PackageJSON) :
  hasFramework (DetectFramework ps os ctx pkg)
  = hasOutputType (DetectFramework ps os ctx pkg).
Proof.
  destruct pkg as [pkg|]; [|reflexivity].
  unfold DetectFramework. cbv zeta.
  repeat next_rule_of_list. reflexivity.
Qed.

(** Every framework the classifier names comes with an output type, and
    no output type is given without a framework: the name is none exactly
    when the output type is none. *)
Theorem framework_has_output_type (ps : Parsers) (os : OS) (ctx : Context)
    (pkg : option PackageJSON) :
  fw_Name (DetectFramework ps os ctx pkg) = FrameworkNone
  <-> fw_OutputType (DetectFramework ps os ctx pkg) = OutputTypeNone.
Proof.
  pose proof (framework_output_type ps os ctx pkg) as H.
  unfold hasFramework, hasOutputType in H.
  destruct (fw_Name (DetectFramework ps os ctx pkg)),
    (fw_OutputType (DetectFramework ps os ctx pkg));
    split; intros; try reflexivity; discriminate.
Qed.

(** A manifest without dependencies in a directory without files, and a
    nil manifest, match no rule: the result is the framework none with an
    empty version and no output type. *)
Theorem framework_none (ps : Parsers) (os : OS) (ctx : Context)
    (pkg : PackageJSON) :
  (forall name, HasDependency pkg name = false) ->
  (forall f, HasFile os ctx f = false) ->
  DetectFramework ps os ctx (Some pkg) = mkFW FrameworkNone "" OutputTypeNone
  /\ DetectFramework ps os ctx None = mkFW FrameworkNone "" OutputTypeNone.
Proof.
  intros Hdep Hfile. split; [|reflexivity].
  unfold DetectFramework. cbv zeta. rewrite !Hdep, !Hfile. reflexivity.
Qed.

Lemma framework_none_witness :
  DetectFramework noParsers (osOf ∅ ∅) appCtx (Some emptyPkg)
    = mkFW FrameworkNone "" OutputTypeNone
  /\ DetectFramework noParsers (osOf ∅ ∅) appCtx None
     = mkFW FrameworkNone "" OutputTypeNone.
Proof.
  apply framework_none.
  - intros name. unfold HasDependency, emptyPkg.
    cbn [pkg_Dependencies pkg_DevDependencies]. rewrite !lookup_empty. reflexivity.
  - intros f. unfold HasFile, osOf. cbn [Stat]. rewrite lookup_empty.
    apply bool_decide_eq_false. intros [x Hx]. discriminate.
Defined.

(** The build command is either empty or the run command of the package
    manager followed by build: an explicit build script and every
    framework default give the same command, and the command is empty
    only when there is no build script. *)
Theorem build_command_shape (pkg : PackageJSON) (pm : PackageManagerInfo)
    (fw : FrameworkInfo) :
  (determineBuildCommand pkg pm fw = ""
   \/ determineBuildCommand pkg pm fw = (GetRunCommand pm ++ " build")%string)
  /\ (HasScript pkg "build" = true ->
      determineBuildCommand pkg pm fw = (GetRunCommand pm ++ " build")%string)
  /\ (determineBuildCommand pkg pm fw = "" -> HasScript pkg "build" = false).
Proof.
  unfold determineBuildCommand, GetDefaultBuildCommand. cbv zeta.
  destruct (HasScript pkg "build").
  - split; [right; reflexivity|]. split; [reflexivity|].
    destruct pm as [[] v]; cbn; discriminate.
  - split; [|split; [discriminate | reflexivity]].
    destruct (fw_Name fw); (left; reflexivity) || (right; reflexivity).
Qed.

End FrameworkProps.

(** * Further properties of the provider and of the orchestrator *)

Module PlanProps.
Import Notions App Node Detector Fixtures StringFacts FrameworkProps.

Lemma lookup_setIf_ne (c : bool) (k k' : string) (v : JValue)
    (m : gmap string JValue) :
  k <> k' -> setIf c k v m !! k' = m !! k'.
Proof.
  intros Hne. unfold setIf. destruct c; [|reflexivity]. apply lookup_insert_ne, Hne.
Qed.

Lemma lookup_setIf_eq (c : bool) (k : string) (v : JValue)
    (m : gmap string JValue) :
  setIf c k v m !! k = if c then Some v else m !! k.
Proof. unfold setIf. destruct c; [|reflexivity]. apply lookup_insert_eq. Qed.

(** Look up one key in the metadata: pass the assignments to other keys. *)
Ltac skip_assignments :=
  repeat (rewrite lookup_setIf_ne by discriminate); rewrite ?lookup_empty.

Lemma metadata_output_type (os : OS) (ctx : Context) (pkg : PackageJSON)
    (pm : PackageManagerInfo) (fw : FrameworkInfo) :
  planMetadata os ctx pkg pm fw !! "output_type" =
  if hasFramework fw && hasOutputType fw
  then Some (JString (OutputType_string (fw_OutputType fw))) else None.
Proof.
  unfold planMetadata. cbv zeta. skip_assignments.
  rewrite lookup_setIf_eq. skip_assignments. reflexivity.
Qed.

Lemma metadata_runtime (os : OS) (ctx : Context) (pkg : PackageJSON)
    (pm : PackageManagerInfo) (fw : FrameworkInfo) :
  planMetadata os ctx pkg pm fw !! "runtime" =
  if isBun pm then Some (JString "bun") else None.
Proof.
  unfold planMetadata. cbv zeta. skip_assignments.
  rewrite lookup_setIf_eq. skip_assignments. reflexivity.
Qed.

Lemma metadata_is_spa (os : OS) (ctx : Context) (pkg : PackageJSON)
    (pm : PackageManagerInfo) (fw : FrameworkInfo) :
  planMetadata os ctx pkg pm fw !! "is_spa" =
  if strEq (OutputType_string (fw_OutputType fw)) "static"
     && hasFramework fw && hasOutputType fw && detectSPA pkg fw
  then Some (JBool true) else None.
Proof.
  pose proof (metadata_output_type os ctx pkg pm fw) as Hout.
  unfold planMetadata in *. cbv zeta in *.
  rewrite lookup_setIf_eq. rewrite lookup_setIf_ne in Hout by discriminate.
  unfold isStatic at 1. rewrite Hout. skip_assignments.
  destruct (hasFramework fw), (hasOutputType fw); cbn [andb];
    rewrite ?andb_false_r; try reflexivity.
  destruct (strEq (OutputType_string (fw_OutputType fw)) "static"),
    (detectSPA pkg fw); reflexivity.
Qed.

(** The plan is marked as a single page application only for a static
    build: when the metadata holds is_spa, its value is true, the output
    type in the metadata is static, a client-side router is among the
    dependencies and the framework is none of those that render a page
    per route. *)
Theorem spa_only_when_static (os : OS) (ctx : Context) (pkg : PackageJSON)
    (pm : PackageManagerInfo) (fw : FrameworkInfo) (v : JValue) :
  planMetadata os ctx pkg pm fw !! "is_spa" = Some v ->
  v = JBool true
  /\ planMetadata os ctx pkg pm fw !! "output_type" = Some (JString "static")
  /\ fw_OutputType fw = OutputTypeStatic
  /\ existsb (HasDependency pkg) spaRouters = true
  /\ ~ In (fw_Name fw)
       [FrameworkGatsby; FrameworkEleventy; FrameworkNextJS; FrameworkNuxt;
        FrameworkAstro].
Proof.
  rewrite metadata_is_spa, metadata_output_type.
  destruct (strEq (OutputType_string (fw_OutputType fw)) "static") eqn:Hs;
    [|discriminate].
  destruct (hasFramework fw); [|discriminate].
  destruct (hasOutputType fw); [|discriminate].
  destruct (detectSPA pkg fw) eqn:Hspa; [|discriminate].
  cbn [andb]. intros [= <-].
  assert (Hout : fw_OutputType fw = OutputTypeStatic).
  { destruct (fw_OutputType fw); [discriminate | reflexivity | discriminate]. }
  rewrite Hout. repeat split; try reflexivity.
  - unfold detectSPA in Hspa. destruct (fw_Name fw); try discriminate; exact Hspa.
  - unfold detectSPA in Hspa. cbn [In].
    intros [H|[H|[H|[H|[H|[]]]]]]; rewrite <- H in Hspa; discriminate.
Qed.

Lemma spa_only_when_static_witness :
  let pkg := withDependencies emptyPkg
               {[ "vite" := "^5.0.0"; "vue-router" := "^4.0.0" ]} in
  let fw := DetectFramework noParsers (osOf ∅ ∅) appCtx (Some pkg) in
  planMetadata (osOf ∅ ∅) appCtx pkg (mkPM PackageManagerNPM "") fw !! "is_spa"
    = Some (JBool true)
  /\ fw_OutputType fw = OutputTypeStatic.
Proof.
  cbv zeta. split; [vm_compute; reflexivity|].
  apply (spa_only_when_static (osOf ∅ ∅) appCtx
           (withDependencies emptyPkg
              {[ "vite" := "^5.0.0"; "vue-router" := "^4.0.0" ]})
           (mkPM PackageManagerNPM "") _ (JBool true)).
  vm_compute. reflexivity.
Defined.

Lemma plan_of_manifest (unmarshal : Unmarshal) (ps : Parsers) (os : OS)
    (ctx : Context) (plan : Plan) :
  Provider_Plan unmarshal ps os ctx = Ok plan ->
  exists pkgData pkg,
    ReadFile os ctx "package.json" = Some pkgData
    /\ unmarshal pkgData = Some pkg
    /\ let pmInfo := DetectPackageManager os ctx pkg in
       let fwInfo := DetectFramework ps os ctx (Some pkg) in
       App.Provider plan = "node"
       /\ Language plan = (languageOf pmInfo (DetectNodeVersion os ctx (Some pkg))).1
       /\ App.Framework plan =
            (if hasFramework fwInfo then Framework_string (fw_Name fwInfo) else "")
       /\ FrameworkVersion plan =
            (if hasFramework fwInfo then fw_Version fwInfo else "")
       /\ App.PackageManager plan = PackageManager_string (pm_Name pmInfo)
       /\ InstallCommand plan = GetInstallCommand pmInfo
       /\ DetectedFiles plan = "package.json" :: detectRelevantFiles os ctx pmInfo
       /\ Metadata plan = planMetadata os ctx pkg pmInfo fwInfo
       /\ BuildEnv plan = ∅ /\ PlanEnv plan = ∅.
Proof.
  unfold Provider_Plan, ParsePackageJSON. intros Hplan.
  destruct (ReadFile os ctx "package.json") as [pkgData|]; [|discriminate].
  destruct (unmarshal pkgData) as [pkg|] eqn:Hpkg; [|discriminate].
  exists pkgData, pkg. split; [reflexivity|]. split; [exact Hpkg|].
  cbv zeta in *.
  destruct (languageOf (DetectPackageManager os ctx pkg)
              (DetectNodeVersion os ctx (Some pkg))) as [language languageVersion].
  injection Hplan as <-.
  cbn [App.Provider Language App.Framework FrameworkVersion App.PackageManager
       InstallCommand DetectedFiles Metadata BuildEnv PlanEnv fst].
  unfold hasFramework.
  repeat split; destruct (fw_Name (DetectFramework ps os ctx (Some pkg)));
    reflexivity.
Qed.

(** A manifest with a vite and a vue-router dependency beside a
    yarn.lock, used to try the statements about plans. *)
Definition vitePkg : PackageJSON :=
  withDependencies emptyPkg {[ "vite" := "^5.0.0"; "vue-router" := "^4.0.0" ]}.

Definition viteOS : OS :=
  osOf {[ "/app/package.json" := "{}"; "/app/yarn.lock" := "";
          "/app/tsconfig.json" := "{}" ]} ∅.

Definition viteUnmarshal : Unmarshal := fun _ => Some vitePkg.

(** A plan that is returned always names its provider, its language, its
    package manager and its install command: the provider is node, the
    language is nodejs or bun, the package manager is one of the five
    known names and the install command is not empty; the two
    environment maps are empty. *)
Theorem plan_always_set (unmarshal : Unmarshal) (ps : Parsers) (os : OS)
    (ctx : Context) (plan : Plan) :
  Provider_Plan unmarshal ps os ctx = Ok plan ->
  App.Provider plan = "node"
  /\ (Language plan = "nodejs" \/ Language plan = "bun")
  /\ In (App.PackageManager plan) ["npm"; "yarn"; "yarnberry"; "pnpm"; "bun"]
  /\ InstallCommand plan <> ""
  /\ BuildEnv plan = ∅ /\ PlanEnv plan = ∅.
Proof.
  intros Hplan.
  destruct (plan_of_manifest _ _ _ _ _ Hplan)
    as (pkgData & pkg & _ & _ & Hp & Hl & _ & _ & Hpm & Hi & _ & _ & Hb & He).
  rewrite Hp, Hl, Hpm, Hi, Hb, He. unfold languageOf, GetInstallCommand.
  destruct (pm_Name (DetectPackageManager os ctx pkg)); cbn;
    repeat split; try tauto; discriminate.
Qed.

Lemma plan_always_set_witness :
  exists plan,
    Provider_Plan viteUnmarshal noParsers viteOS appCtx = Ok plan
    /\ App.Provider plan = "node" /\ Language plan = "nodejs"
    /\ App.PackageManager plan = "yarn".
Proof.
  destruct (Provider_Plan viteUnmarshal noParsers viteOS appCtx)
    as [plan|msg] eqn:Hplan; [|vm_compute in Hplan; discriminate].
  exists plan. split; [reflexivity|].
  split; [apply (plan_always_set _ _ _ _ _ Hplan)|].
  vm_compute in Hplan. injection Hplan as <-. split; reflexivity.
Defined.

Lemma relevant_names_NoDup (pm : PackageManagerInfo) :
  List.NoDup ("package.json" :: GetLockFile pm :: versionFiles ++ configFiles).
Proof.
  apply (NoDup_ListNoDup _).
  destruct pm as [[] v]; apply (bool_decide_unpack _); vm_compute; exact I.
Qed.

(** The detected files of a plan are package.json followed by files
    that exist in the directory, and no file is listed twice. *)
Theorem detected_files_exist (unmarshal : Unmarshal) (ps : Parsers) (os : OS)
    (ctx : Context) (plan : Plan) :
  Provider_Plan unmarshal ps os ctx = Ok plan ->
  List.NoDup (DetectedFiles plan)
  /\ exists rest,
       DetectedFiles plan = "package.json" :: rest
       /\ forall f, In f rest -> HasFile os ctx f = true.
Proof.
  intros Hplan.
  destruct (plan_of_manifest _ _ _ _ _ Hplan)
    as (pkgData & pkg & _ & _ & _ & _ & _ & _ & _ & _ & Hfiles & _).
  rewrite Hfiles. unfold detectRelevantFiles. split.
  - pose proof (relevant_names_NoDup (DetectPackageManager os ctx pkg)) as Hnd.
    apply List.NoDup_cons_iff in Hnd as [Hnotin Hnd].
    apply List.NoDup_cons.
    + intros Hin. apply List.filter_In in Hin as [Hin _]. exact (Hnotin Hin).
    + apply List.NoDup_filter, Hnd.
  - eexists. split; [reflexivity|].
    intros f Hin. apply List.filter_In in Hin as [_ Hf]. exact Hf.
Qed.

Lemma detected_files_exist_witness :
  exists plan,
    Provider_Plan viteUnmarshal noParsers viteOS appCtx = Ok plan
    /\ List.NoDup (DetectedFiles plan)
    /\ DetectedFiles plan = ["package.json"; "yarn.lock"; "tsconfig.json"].
Proof.
  destruct (Provider_Plan viteUnmarshal noParsers viteOS appCtx)
    as [plan|msg] eqn:Hplan; [|vm_compute in Hplan; discriminate].
  exists plan. split; [reflexivity|].
  split; [apply (detected_files_exist _ _ _ _ _ Hplan)|].
  vm_compute in Hplan. injection Hplan as <-. reflexivity.
Defined.

(** The language of a plan and its runtime metadata agree: the language
    is bun exactly when the package manager is bun and exactly when the
    metadata names bun as runtime; for nodejs the metadata has no
    runtime entry. *)
Theorem bun_runtime_metadata (unmarshal : Unmarshal) (ps : Parsers) (os : OS)
    (ctx : Context) (plan : Plan) :
  Provider_Plan unmarshal ps os ctx = Ok plan ->
  (Language plan = "bun" <-> App.PackageManager plan = "bun")
  /\ (Language plan = "bun" <-> Metadata plan !! "runtime" = Some (JString "bun"))
  /\ (Language plan = "nodejs" <-> Metadata plan !! "runtime" = None).
Proof.
  intros Hplan.
  destruct (plan_of_manifest _ _ _ _ _ Hplan)
    as (pkgData & pkg & _ & _ & _ & Hl & _ & _ & Hpm & _ & _ & Hm & _).
  rewrite Hl, Hpm, Hm, metadata_runtime. unfold languageOf, isBun.
  destruct (pm_Name (DetectPackageManager os ctx pkg)); cbn;
    repeat split; intros; try reflexivity; discriminate.
Qed.

Lemma bun_runtime_metadata_witness :
  exists plan,
    Provider_Plan (fun _ => Some emptyPkg) noParsers
      (osOf {[ "/app/package.json" := "{}"; "/app/bun.lock" := "" ]} ∅) appCtx
      = Ok plan
    /\ Language plan = "bun"
    /\ Metadata plan !! "runtime" = Some (JString "bun").
Proof.
  destruct (Provider_Plan (fun _ => Some emptyPkg) noParsers
              (osOf {[ "/app/package.json" := "{}"; "/app/bun.lock" := "" ]} ∅)
              appCtx) as [plan|msg] eqn:Hplan; [|vm_compute in Hplan; discriminate].
  exists plan. split; [reflexivity|].
  assert (Hl : Language plan = "bun")
    by (vm_compute in Hplan; injection Hplan as <-; reflexivity).
  split; [exact Hl|].
  apply (proj1 (proj2 (bun_runtime_metadata _ _ _ _ _ Hplan))). exact Hl.
Defined.

Lemma Framework_string_empty (f : Framework) :
  Framework_string f = "" <-> f = FrameworkNone.
Proof. destruct f; split; intros H; try reflexivity; discriminate. Qed.

(** A plan carries an output type in its metadata exactly when it names a
    framework, and a plan without a framework has no framework version. *)
Theorem output_type_with_framework (unmarshal : Unmarshal) (ps : Parsers)
    (os : OS) (ctx : Context) (plan : Plan) :
  Provider_Plan unmarshal ps os ctx = Ok plan ->
  (App.Framework plan = "" <-> Metadata plan !! "output_type" = None)
  /\ (App.Framework plan = "" -> FrameworkVersion plan = "")
  /\ (forall t, Metadata plan !! "output_type" = Some t ->
        t = JString "static" \/ t = JString "server").
Proof.
  intros Hplan.
  destruct (plan_of_manifest _ _ _ _ _ Hplan)
    as (pkgData & pkg & _ & _ & _ & _ & Hf & Hv & _ & _ & _ & Hm & _).
  rewrite Hf, Hv, Hm, metadata_output_type.
  pose proof (framework_output_type ps os ctx (Some pkg)) as Hout.
  set (fw := DetectFramework ps os ctx (Some pkg)) in *.
  unfold hasFramework, hasOutputType in *.
  destruct (fw_Name fw), (fw_OutputType fw);
    cbn [andb Framework_string OutputType_string] in *;
    try discriminate Hout;
    (split; [split; intros H; try reflexivity; discriminate H|]);
    (split; [intros H; try reflexivity; discriminate H|]);
    intros t [= <-]; auto.
Qed.

Lemma output_type_with_framework_witness :
  exists plan,
    Provider_Plan viteUnmarshal noParsers viteOS appCtx = Ok plan
    /\ App.Framework plan = "vite"
    /\ Metadata plan !! "output_type" = Some (JString "static").
Proof.
  destruct (Provider_Plan viteUnmarshal noParsers viteOS appCtx)
    as [plan|msg] eqn:Hplan; [|vm_compute in Hplan; discriminate].
  exists plan. split; [reflexivity|].
  pose proof (output_type_with_framework _ _ _ _ _ Hplan) as (Hiff & _ & Hval).
  vm_compute in Hplan. injection Hplan as <-. split; reflexivity.
Defined.

End PlanProps.

(** * Further properties of the orchestrator *)

Module DetectorProps.
Import Notions App Node Detector Fixtures StringFacts.

Lemma detect_registered (unmarshal : Unmarshal) (ps : Parsers) (root : string)
    (os : OS) :
  Detect_ (New unmarshal ps root) os =
  let ctx := detectContext (New unmarshal ps root) os in
  if HasFile os ctx "package.json" then
    match Provider_Plan unmarshal ps os ctx with
    | Ok plan => Ok (Some plan)
    | Err e => Err e
    end
  else Ok None.
Proof. reflexivity. Qed.

(** Once the node provider has claimed a directory, its failure is the
    result of the detection: a package.json that exists and cannot be
    read, or that is read and does not parse, gives that error and not
    the answer no plan; one that parses gives the plan of the provider. *)
Theorem manifest_errors_propagate (unmarshal : Unmarshal) (ps : Parsers)
    (root : string) (os : OS) :
  let d := New unmarshal ps root in
  let ctx := detectContext d os in
  (HasFile os ctx "package.json" = true ->
   ReadFile os ctx "package.json" = None ->
   Detect_ d os = Err "failed to read package.json")
  /\ (forall data,
        HasFile os ctx "package.json" = true ->
        ReadFile os ctx "package.json" = Some data ->
        unmarshal data = None ->
        Detect_ d os = Err "failed to parse package.json")
  /\ (forall data pkg,
        HasFile os ctx "package.json" = true ->
        ReadFile os ctx "package.json" = Some data ->
        unmarshal data = Some pkg ->
        exists plan,
          Provider_Plan unmarshal ps os ctx = Ok plan
          /\ Detect_ d os = Ok (Some plan))
  /\ (HasFile os ctx "package.json" = false -> Detect_ d os = Ok None).
Proof.
  intros d ctx. unfold d. rewrite detect_registered. cbv zeta. fold d. fold ctx.
  split; [|split; [|split]].
  - intros Hf Hr. rewrite Hf. unfold Provider_Plan. rewrite Hr. reflexivity.
  - intros data Hf Hr Hu. rewrite Hf. unfold Provider_Plan, ParsePackageJSON.
    rewrite Hr, Hu. reflexivity.
  - intros data pkg Hf Hr Hu. rewrite Hf. unfold Provider_Plan, ParsePackageJSON.
    rewrite Hr, Hu. cbv zeta.
    destruct (languageOf _ _). eexists. split; reflexivity.
  - intros Hf. rewrite Hf. reflexivity.
Qed.

Example broken_manifest :
  Detect_ (New (fun _ => None) noParsers "/app")
          (osOf {[ "/app/package.json" := "{ name: " ]} ∅)
  = Err "failed to parse package.json".
Proof. vm_compute. reflexivity. Qed.

Definition loadStep (os : OS) (env : gmap string string) (v : string)
  : gmap string string :=
  if negb (strEq (Getenv os v) "") then <[v := Getenv os v]> env else env.

Lemma load_fold (os : OS) (k : string) (names : list string) :
  forall env : gmap string string,
    fold_left (loadStep os) names env !! k =
    if existsb (strEq k) names && negb (strEq (Getenv os k) "")
    then Some (Getenv os k) else env !! k.
Proof.
  induction names as [|x names IH]; intros env; [reflexivity|].
  cbn [fold_left existsb]. rewrite IH. unfold loadStep.
  destruct (strEq k x) eqn:Hkx.
  - apply strEq_true in Hkx. subst x. cbn [orb andb].
    destruct (existsb (strEq k) names); cbn [andb];
      destruct (negb (strEq (Getenv os k) "")); try reflexivity.
    apply lookup_insert_eq.
  - cbn [orb].
    destruct (existsb (strEq k) names && negb (strEq (Getenv os k) ""));
      [reflexivity|].
    destruct (negb (strEq (Getenv os x) "")); [|reflexivity].
    apply lookup_insert_ne. intros ->. rewrite strEq_refl in Hkx. discriminate.
Qed.

(** The environment overlay holds exactly the whitelisted variables that
    are set to a non-empty value, each with its value: no other variable
    of the process reaches the detection, and a variable set to the
    empty string is the same as one that is not set. *)
Theorem env_whitelist (os : OS) (k v : string) :
  loadRelevantEnvVars os !! k = Some v
  <-> In k envVars /\ Getenv os k = v /\ v <> "".
Proof.
  unfold loadRelevantEnvVars.
  change (fold_left _ envVars ∅) with (fold_left (loadStep os) envVars ∅).
  rewrite load_fold, lookup_empty.
  destruct (existsb (strEq k) envVars) eqn:Hin; cbn [andb].
  - apply existsb_exists in Hin as [x [Hx Hkx]]. apply strEq_true in Hkx. subst x.
    destruct (strEq (Getenv os k) "") eqn:He; cbn [negb].
    + apply strEq_true in He. split; [discriminate|].
      intros (_ & Hg & Hv). congruence.
    + apply strEq_false in He. split.
      * intros [= <-]. auto.
      * intros (_ & <- & _). reflexivity.
  - split; [discriminate|]. intros (Hk & _).
    assert (existsb (strEq k) envVars = true); [|congruence].
    apply existsb_exists. exists k. split; [exact Hk | apply strEq_refl].
Qed.

End DetectorProps.

(** * Further properties of the wire format *)

Module WireExtraProps.
Import Notions App Fixtures StringFacts WireProps.

Lemma getString_insert_ne (w : gmap string JValue) (k k' : string) (v : JValue) :
  k <> k' -> getString (<[k := v]> w) k' = getString w k'.
Proof. intros H. unfold getString. rewrite lookup_insert_ne by exact H. reflexivity. Qed.

Lemma getStrings_insert_ne (w : gmap string JValue) (k k' : string) (v : JValue) :
  k <> k' -> getStrings (<[k := v]> w) k' = getStrings w k'.
Proof. intros H. unfold getStrings. rewrite lookup_insert_ne by exact H. reflexivity. Qed.

Lemma getObject_insert_ne (w : gmap string JValue) (k k' : string) (v : JValue) :
  k <> k' -> getObject (<[k := v]> w) k' = getObject w k'.
Proof. intros H. unfold getObject. rewrite lookup_insert_ne by exact H. reflexivity. Qed.

Lemma getStringMap_insert_ne (w : gmap string JValue) (k k' : string) (v : JValue) :
  k <> k' -> getStringMap (<[k := v]> w) k' = getStringMap w k'.
Proof. intros H. unfold getStringMap. rewrite lookup_insert_ne by exact H. reflexivity. Qed.

(** Parsing ignores members it does not know: adding a member whose
    name is ASCII and is not a member name of the plan in any letter
    case, with any value, does not change the plan a document parses to,
    nor whether it parses. (The decoder matches member names without
    regard to case, so a name that differs from a member name in case
    only is not unknown.) *)
Theorem unknown_members_ignored (w : gmap string JValue) (k : string) (v : JValue) :
  allBytes isAsciiByte k = true ->
  ~ In (ToLower k) memberNames -> parse (<[k := v]> w) = parse w.
Proof.
  intros _ Hk. unfold parse.
  rewrite !getString_insert_ne, getStrings_insert_ne, getObject_insert_ne,
    !getStringMap_insert_ne
    by (intros ->; apply Hk; vm_compute; tauto).
  reflexivity.
Qed.

Lemma unknown_members_ignored_witness :
  let w : gmap string JValue :=
    {[ "provider" := JString "node"; "language" := JString "nodejs" ]} in
  parse (<[ "schema_version" := JArray [JBool true] ]> w) = parse w.
Proof.
  cbv zeta. apply unknown_members_ignored; [reflexivity|].
  vm_compute. intros H. repeat (destruct H as [H|H]; [discriminate|]). exact H.
Defined.

(** A member that holds a value of the wrong JSON type makes the whole
    document fail to parse: for each of the ten string members, a value
    that is neither a string nor null gives an error, whatever the other
    members hold. *)
Theorem wrong_type_is_an_error (w : gmap string JValue) (k : string) (v : JValue) :
  In k stringMembers -> w !! k = Some v -> stringOf v = None -> parse w = None.
Proof.
  intros Hin Hk Hv.
  assert (Hget : getString w k = None) by (unfold getString; rewrite Hk; exact Hv).
  unfold stringMembers in Hin. cbn [In] in Hin. unfold parse.
  repeat (destruct Hin as [<- | Hin]); [..|contradiction];
    repeat match goal with
           | |- mbind _ (getString w ?x) = None =>
               first [ rewrite Hget; reflexivity
                     | destruct (getString w x); [cbn [mbind option_bind]|reflexivity] ]
           end.
Qed.

Lemma wrong_type_is_an_error_witness :
  parse {[ "provider" := JString "node"; "language" := JString "nodejs";
           "framework" := JBool true ]} = None.
Proof.
  apply (wrong_type_is_an_error _ "framework" (JBool true));
    [unfold stringMembers; cbn [In]; tauto | reflexivity | reflexivity].
Defined.

End WireExtraProps.

(** * The comparison of release tags *)

Module VersionCheckProps.
Import Notions Version StringFacts.

Lemma newerFrom_triple (scan : Scan) (lp cp : list string) :
  newerFrom scan lp cp [0; 1; 2] = true <->
  tripleLt (partNum scan cp 0, partNum scan cp 1, partNum scan cp 2)
           (partNum scan lp 0, partNum scan lp 1, partNum scan lp 2).
Proof.
  cbn [newerFrom tripleLt].
  repeat match goal with
         | |- context [Z.ltb ?a ?b] => destruct (Z.ltb_spec a b)
         end; split; intros Hgoal; try reflexivity; try discriminate Hgoal; lia.
Qed.

Lemma isNewer_triple (scan : Scan) (latest current : string) :
  isNewer scan latest current = true <->
  tripleLt (versionTriple scan current) (versionTriple scan latest).
Proof. unfold isNewer, versionTriple. apply newerFrom_triple. Qed.

(** [isNewer] is the strict lexicographic order on the first three
    numbers of the two tags, a leading v dropped: no tag is newer than
    itself, two tags are never each newer than the other, being newer is
    transitive, and tags that agree on their first three numbers are not
    ordered whatever follows the third. This holds for any way of reading
    a number from a part. *)
Theorem isNewer_strict_order (scan : Scan) :
  (forall a b, isNewer scan a b = true <->
               tripleLt (versionTriple scan b) (versionTriple scan a))
  /\ (forall a, isNewer scan a a = false)
  /\ (forall a b, isNewer scan a b = true -> isNewer scan b a = false)
  /\ (forall a b c, isNewer scan a b = true -> isNewer scan b c = true ->
                    isNewer scan a c = true)
  /\ (forall a b, versionTriple scan a = versionTriple scan b ->
                  isNewer scan a b = false).
Proof.
  assert (Hirr : forall t, ~ tripleLt t t).
  { intros [[t0 t1] t2]. cbn. lia. }
  assert (Hfalse : forall a b,
             ~ tripleLt (versionTriple scan b) (versionTriple scan a) ->
             isNewer scan a b = false).
  { intros a b Hn. destruct (isNewer scan a b) eqn:H; [|reflexivity].
    apply isNewer_triple in H. contradiction. }
  split; [apply isNewer_triple|].
  split; [intros a; apply Hfalse, Hirr|].
  split.
  { intros a b Hab. apply Hfalse. apply isNewer_triple in Hab.
    destruct (versionTriple scan a) as [[a0 a1] a2],
      (versionTriple scan b) as [[b0 b1] b2]. cbn in *. lia. }
  split.
  { intros a b c Hab Hbc. apply isNewer_triple.
    apply isNewer_triple in Hab. apply isNewer_triple in Hbc.
    destruct (versionTriple scan a) as [[a0 a1] a2],
      (versionTriple scan b) as [[b0 b1] b2],
      (versionTriple scan c) as [[c0 c1] c2]. cbn in *. lia. }
  intros a b Heq. apply Hfalse. rewrite Heq. apply Hirr.
Qed.

End VersionCheckProps.

(** * The mise.toml pattern and the paired metadata entries *)

Module MiseAndMetadataProps.
Import Notions App Node Fixtures StringFacts PlanProps NativeProps.

Lemma untilQuote_no_quote (s v : string) :
  untilQuote s = Some v -> allBytes (fun c => negb (Ascii.eqb c dq)) v = true.
Proof.
  revert v. induction s as [|c s IH]; intros v; [discriminate|].
  cbn [untilQuote]. destruct (Ascii.eqb c dq) eqn:Hc.
  - intros [= <-]. reflexivity.
  - destruct (untilQuote s) as [r|]; [|discriminate].
    intros [= <-]. cbn [allBytes]. rewrite Hc, (IH r eq_refl). reflexivity.
Qed.

Lemma miseTail_capture (t v : string) :
  miseTail t = Some v ->
  v <> "" /\ allBytes (fun c => negb (Ascii.eqb c dq)) v = true.
Proof.
  unfold miseTail.
  destruct (skipSpaceRE t) as [|c t2]; [discriminate|].
  destruct (Ascii.eqb c "="); [|discriminate].
  destruct (skipSpaceRE t2) as [|q t4]; [discriminate|].
  destruct (Ascii.eqb q dq); [|discriminate].
  destruct (untilQuote t4) as [r|] eqn:Hr; [|discriminate].
  destruct (strEq r "") eqn:He; [discriminate|].
  intros [= <-]. split; [apply strEq_false, He | eapply untilQuote_no_quote, Hr].
Qed.

Lemma miseMatchAt_capture (s v : string) :
  miseMatchAt s = Some v ->
  HasPrefix s "node" = true
  /\ v <> "" /\ allBytes (fun c => negb (Ascii.eqb c dq)) v = true.
Proof.
  unfold miseMatchAt. destruct (HasPrefix s "node"); [|discriminate].
  intros H. split; [reflexivity|].
  destruct (miseTail (dropStr 4 s)) as [r|] eqn:H4.
  - injection H as <-. eapply miseTail_capture, H4.
  - destruct (HasPrefix s "nodejs"); [|discriminate].
    eapply miseTail_capture, H.
Qed.

(** The mise.toml pattern finds a version only where the text node
    occurs: a file without it gives no version, and the value captured
    at a match is never empty and holds no double quote. *)
Theorem mise_version_needs_node (content : string) :
  (occurs "node" content = false -> parseMiseToml content = "")
  /\ (forall v, miseFind content = Some v ->
        occurs "node" content = true
        /\ v <> ""
        /\ allBytes (fun c => negb (Ascii.eqb c dq)) v = true
        /\ parseMiseToml content = normalizeVersion v).
Proof.
  assert (Hfind : forall s v, miseFind s = Some v ->
            occurs "node" s = true /\ v <> ""
            /\ allBytes (fun c => negb (Ascii.eqb c dq)) v = true).
  { induction s as [|c s IH]; intros v.
    - cbn [miseFind]. destruct (miseMatchAt "") as [r|] eqn:Hm; [|discriminate].
      vm_compute in Hm. discriminate.
    - cbn [miseFind occurs].
      destruct (miseMatchAt (String c s)) as [r|] eqn:Hm.
      + intros [= <-]. apply miseMatchAt_capture in Hm as (Hp & Hv).
        rewrite Hp. split; [reflexivity | exact Hv].
      + intros H. destruct (IH v H) as (Ho & Hv). rewrite Ho, orb_true_r.
        split; [reflexivity | exact Hv]. }
  split.
  - intros Hno. unfold parseMiseToml.
    destruct (miseFind content) as [v|] eqn:Hm; [|reflexivity].
    destruct (Hfind _ _ Hm) as (Ho & _). congruence.
  - intros v Hm. destruct (Hfind _ _ Hm) as (Ho & Hv & Hq).
    repeat split; try assumption. unfold parseMiseToml. rewrite Hm. reflexivity.
Qed.

Example mise_examples :
  parseMiseToml ("[tools]" ++ LF ++ "nodejs = " ++ DQ ++ "v20.10.0" ++ DQ) = "20.10.0"
  /\ parseMiseToml ("node=" ++ DQ ++ DQ) = ""
  /\ parseMiseToml ("python = " ++ DQ ++ "3.12" ++ DQ) = "".
Proof. vm_compute. repeat split; reflexivity. Qed.

Lemma metadata_native (os : OS) (ctx : Context) (pkg : PackageJSON)
    (pm : PackageManagerInfo) (fw : FrameworkInfo) :
  planMetadata os ctx pkg pm fw !! "apt_packages" =
    (if Nat.ltb 0 (length (DetectNativeDependencies pkg))
     then Some (jstrings (GetRequiredAptPackages (DetectNativeDependencies pkg)))
     else None)
  /\ planMetadata os ctx pkg pm fw !! "native_packages" =
     (if Nat.ltb 0 (length (DetectNativeDependencies pkg))
      then Some (jstrings (map Package (DetectNativeDependencies pkg)))
      else None).
Proof.
  unfold planMetadata. cbv zeta. split; skip_assignments;
    rewrite lookup_setIf_eq; skip_assignments; reflexivity.
Qed.

Lemma metadata_monorepo (os : OS) (ctx : Context) (pkg : PackageJSON)
    (pm : PackageManagerInfo) (fw : FrameworkInfo) :
  planMetadata os ctx pkg pm fw !! "is_monorepo" =
    (if IsMonorepo pkg then Some (JBool true) else None)
  /\ planMetadata os ctx pkg pm fw !! "workspaces" =
     (if IsMonorepo pkg then Some (jstrings (pkg_Workspaces pkg)) else None).
Proof.
  unfold planMetadata. cbv zeta. split; skip_assignments;
    rewrite lookup_setIf_eq; skip_assignments; reflexivity.
Qed.

Lemma jstrings_inj (l l' : list string) :
  JString <$> l = JString <$> l' -> l = l'.
Proof.
  revert l'.
  induction l as [|x l IH]; intros [|y l'] H; try discriminate; [reflexivity|].
  cbn in H. injection H as -> H. f_equal. apply IH, H.
Qed.

(** The metadata entries that belong together are set together: the apt
    packages are present exactly when the native packages are, which is
    when a catalog package is a dependency, and the list of apt packages
    then has no duplicate; the monorepo flag is present exactly when the
    workspaces are, which is when the manifest lists a workspace, and
    the list stored is that of the manifest. *)
Theorem metadata_pairs (os : OS) (ctx : Context) (pkg : PackageJSON)
    (pm : PackageManagerInfo) (fw : FrameworkInfo) :
  let m := planMetadata os ctx pkg pm fw in
  (is_Some (m !! "apt_packages") <-> is_Some (m !! "native_packages"))
  /\ (is_Some (m !! "apt_packages") <-> DetectNativeDependencies pkg <> [])
  /\ (forall l, m !! "apt_packages" = Some (jstrings l) -> List.NoDup l)
  /\ (is_Some (m !! "is_monorepo") <-> is_Some (m !! "workspaces"))
  /\ (m !! "is_monorepo" = Some (JBool true) <-> pkg_Workspaces pkg <> [])
  /\ (forall l, m !! "workspaces" = Some (jstrings l) -> l = pkg_Workspaces pkg).
Proof.
  cbv zeta.
  destruct (metadata_native os ctx pkg pm fw) as [Hapt Hnat].
  destruct (metadata_monorepo os ctx pkg pm fw) as [Hmono Hws].
  rewrite Hapt, Hnat, Hmono, Hws. unfold IsMonorepo.
  assert (Hnone : forall A : Type, ~ is_Some (@None A))
    by (intros A [x Hx]; discriminate).
  split; [|split; [|split]].
  - destruct (DetectNativeDependencies pkg); cbn [length Nat.ltb Nat.leb];
      split; intros [x Hx]; try discriminate; eauto.
  - destruct (DetectNativeDependencies pkg); cbn [length Nat.ltb Nat.leb]; split.
    + intros [x Hx]. discriminate.
    + intros H. contradiction H. reflexivity.
    + intros _. discriminate.
    + intros _. eauto.
  - intros l. destruct (DetectNativeDependencies pkg) as [|d ds];
      cbn [length Nat.ltb Nat.leb]; [discriminate|].
    intros [= Hl]. apply jstrings_inj in Hl. rewrite <- Hl.
    rewrite GetRequiredAptPackages_firstSeen. apply firstSeen_NoDup.
  - split; [|split].
    + destruct (pkg_Workspaces pkg); cbn [length Nat.ltb Nat.leb];
        split; intros [x Hx]; try discriminate; eauto.
    + destruct (pkg_Workspaces pkg); cbn [length Nat.ltb Nat.leb]; split.
      * discriminate.
      * intros H. contradiction H. reflexivity.
      * intros _. discriminate.
      * intros _. reflexivity.
    + intros l. destruct (Nat.ltb 0 (length (pkg_Workspaces pkg))); [|discriminate].
      intros [= Hl]. apply jstrings_inj in Hl. symmetry. exact Hl.
Qed.

End MiseAndMetadataProps.

(** * The output property of the Next.js configuration *)

Module NextProps.
Import Notions App Node Fixtures StringFacts ResolverProps ConfigProps.

Example nested_fixture_texts :
  String.length nextNestedSource = 60
  /\ getNodeText nextNestedTree nextNestedSource = nextNestedSource
  /\ getNodeText (mkNode "pair" "" 17 40 []) nextNestedSource
     = ("images: { output: " ++ DQ ++ "x" ++ DQ ++ " }")%string
  /\ getNodeText (mkNode "pair" "" 27 38 []) nextNestedSource
     = ("output: " ++ DQ ++ "x" ++ DQ)%string
  /\ getNodeText (mkNode "pair" "" 42 58 []) nextNestedSource
     = ("output: " ++ DQ ++ "export" ++ DQ)%string
  /\ getNodeText (mkNode "string" "value" 50 58 []) nextNestedSource
     = (DQ ++ "export" ++ DQ)%string.
Proof. vm_compute. repeat split; reflexivity. Qed.








End NextProps.

(** * The package manager resolver *)

Module PackageManagerProps.
Import Notions App Node Fixtures StringFacts PathProps ResolverProps ManifestProps.

Lemma append_empty (s : string) : (s ++ "")%string = s.
Proof.
  induction s as [|c s IH]; [reflexivity|].
  change (String c (s ++ "") = String c s)%string. rewrite IH. reflexivity.
Qed.

(** The name and the version read from a field composed as [fieldText]. *)
Lemma field_info (pkg : PackageJSON) (name version : string) (hash : option string) :
  sepFree "@" name = true -> sepFree "+" version = true ->
  pkg_PackageManager pkg = fieldText name version hash ->
  GetPackageManagerInfo pkg = (name, version).
Proof.
  intros Hat Hplus Hfield. unfold GetPackageManagerInfo, SplitN2.
  rewrite Hfield. unfold fieldText.
  assert (Hne : forall t, strEq (name ++ String "@" t) "" = false).
  { intros t. apply strEq_false. destruct name; discriminate. }
  rewrite Hne, cutAcc_first by exact Hat. cbn [revAcc].
  destruct hash as [h|].
  - rewrite Split_app_sep, (Split_sepFree _ _ Hplus). reflexivity.
  - rewrite append_empty, (Split_sepFree _ _ Hplus). reflexivity.
Qed.

Lemma field_signal (pkg : PackageJSON) (name version : string) (hash : option string) :
  sepFree "@" name = true -> sepFree "+" version = true ->
  pkg_PackageManager pkg = fieldText name version hash ->
  fieldSignal pkg =
  if negb (strEq name "") then fromPackageManagerField name version else None.
Proof.
  intros Hat Hplus Hfield. unfold fieldSignal.
  rewrite (field_info pkg name version hash Hat Hplus Hfield). reflexivity.
Qed.

Lemma isYarnBerry_berryVersion (version : string) :
  isYarnBerry version = berryVersion version.
Proof.
  destruct version as [|c version]; [reflexivity|].
  destruct c as [[] [] [] [] [] [] [] []]; reflexivity.
Qed.

Lemma no_field_signal (pkg : PackageJSON) :
  pkg_PackageManager pkg = "" -> fieldSignal pkg = None.
Proof.
  intros H. unfold fieldSignal, GetPackageManagerInfo. rewrite H. reflexivity.
Qed.

(** The lock-file step answers with the entry of the first file of the
    table that exists. *)
Lemma fromLockFiles_table (os : OS) (ctx : Context) :
  fromLockFiles os ctx =
  firstSome (fun entry => if HasFile os ctx entry.1 then Some entry.2 else None)
    lockFileTable.
Proof.
  unfold fromLockFiles, lockFileTable. cbn [firstSome fst snd].
  repeat match goal with
         | |- context [HasFile os ctx ?f] => destruct (HasFile os ctx f)
         end; reflexivity.
Qed.

Lemma fromLockFiles_first (os : OS) (ctx : Context)
    (before after : list (string * PackageManager)) (file : string)
    (pm : PackageManager) :
  lockFileTable = before ++ (file, pm) :: after ->
  (forall f, In f (map fst before) -> HasFile os ctx f = false) ->
  HasFile os ctx file = true ->
  fromLockFiles os ctx = Some pm.
Proof.
  intros Htable Hbefore Hfile. rewrite fromLockFiles_table, Htable, firstSome_app.
  assert (Hnone : firstSome
            (fun entry => if HasFile os ctx entry.1 then Some entry.2 else None)
            before = None).
  { clear Htable. induction before as [|[f m] before IH]; [reflexivity|].
    cbn [firstSome fst snd]. rewrite (Hbefore f) by (left; reflexivity).
    apply IH. intros g Hg. apply Hbefore. right. exact Hg. }
  rewrite Hnone. cbn [firstSome fst snd]. rewrite Hfile. reflexivity.
Qed.

Lemma fromLockFiles_none (os : OS) (ctx : Context) :
  (forall f, In f lockFileNames -> HasFile os ctx f = false) ->
  fromLockFiles os ctx = None.
Proof.
  intros Hfiles. unfold fromLockFiles.
  rewrite !Hfiles by (unfold lockFileNames; cbn [In]; tauto). reflexivity.
Qed.

(** C1. The resolver is a total function of the manifest and the
    directory. A packageManager field that names pnpm, yarn, bun or npm
    decides the result, with the version written after the at sign up to
    a plus sign, on every directory and whatever the engines say; yarn is
    Yarn Berry when its version starts with a digit from 2 to 9. A field
    with any other name is as good as no field. Without a field the first
    lock file of the table that exists decides, whatever the engines say.
    Without a field and without any lock file engines.pnpm, then
    engines.bun, then engines.yarn decide, and with none of them the
    result is npm. In particular a field pnpm@8.6.0 gives pnpm 8.6.0 on a
    directory with a yarn.lock, which alone gives classic Yarn. *)
Theorem package_manager_priority (os : OS) (ctx : Context) (pkg : PackageJSON) :
  (forall version hash,
      sepFree "+" version = true ->
      pkg_PackageManager pkg = fieldText "pnpm" version hash ->
      forall os' ctx',
        DetectPackageManager os' ctx' pkg = mkPM PackageManagerPNPM version)
  /\ (forall version hash,
        sepFree "+" version = true ->
        pkg_PackageManager pkg = fieldText "yarn" version hash ->
        forall os' ctx',
          DetectPackageManager os' ctx' pkg =
          mkPM (if berryVersion version then PackageManagerYarnBerry
                else PackageManagerYarn1) version)
  /\ (forall version hash,
        sepFree "+" version = true ->
        pkg_PackageManager pkg = fieldText "bun" version hash ->
        forall os' ctx',
          DetectPackageManager os' ctx' pkg = mkPM PackageManagerBun version)
  /\ (forall version hash,
        sepFree "+" version = true ->
        pkg_PackageManager pkg = fieldText "npm" version hash ->
        forall os' ctx',
          DetectPackageManager os' ctx' pkg = mkPM PackageManagerNPM version)
  /\ (forall os' ctx',
        (pkg_PackageManager pkg = "pnpm" ->
         DetectPackageManager os' ctx' pkg = mkPM PackageManagerPNPM "")
        /\ (pkg_PackageManager pkg = "yarn" ->
            DetectPackageManager os' ctx' pkg = mkPM PackageManagerYarn1 "")
        /\ (pkg_PackageManager pkg = "bun" ->
            DetectPackageManager os' ctx' pkg = mkPM PackageManagerBun "")
        /\ (pkg_PackageManager pkg = "npm" ->
            DetectPackageManager os' ctx' pkg = mkPM PackageManagerNPM ""))
  /\ (forall name version hash,
        sepFree "@" name = true -> sepFree "+" version = true ->
        ~ In name ["pnpm"; "yarn"; "bun"; "npm"] ->
        pkg_PackageManager pkg = fieldText name version hash ->
        DetectPackageManager os ctx pkg =
        DetectPackageManager os ctx (withPackageManager pkg ""))
  /\ (forall before file pm after,
        pkg_PackageManager pkg = "" ->
        lockFileTable = before ++ (file, pm) :: after ->
        (forall f, In f (map fst before) -> HasFile os ctx f = false) ->
        HasFile os ctx file = true ->
        DetectPackageManager os ctx pkg = mkPM pm "")
  /\ (pkg_PackageManager pkg = "" ->
      (forall f, In f lockFileNames -> HasFile os ctx f = false) ->
      (eng_PNPM (pkg_Engines pkg) <> "" ->
       DetectPackageManager os ctx pkg = mkPM PackageManagerPNPM "")
      /\ (eng_PNPM (pkg_Engines pkg) = "" -> eng_Bun (pkg_Engines pkg) <> "" ->
          DetectPackageManager os ctx pkg = mkPM PackageManagerBun "")
      /\ (eng_PNPM (pkg_Engines pkg) = "" -> eng_Bun (pkg_Engines pkg) = "" ->
          eng_Yarn (pkg_Engines pkg) <> "" ->
          DetectPackageManager os ctx pkg = mkPM PackageManagerYarn1 "")
      /\ (eng_PNPM (pkg_Engines pkg) = "" -> eng_Bun (pkg_Engines pkg) = "" ->
          eng_Yarn (pkg_Engines pkg) = "" ->
          DetectPackageManager os ctx pkg = mkPM PackageManagerNPM ""))
  /\ (pkg_PackageManager pkg = "pnpm@8.6.0" ->
      forall os' ctx',
        DetectPackageManager os' ctx' pkg = mkPM PackageManagerPNPM "8.6.0").
Proof.
  split.
  { intros version hash Hplus Hfield os' ctx'. unfold DetectPackageManager.
    rewrite (field_signal pkg "pnpm" version hash eq_refl Hplus Hfield).
    reflexivity. }
  split.
  { intros version hash Hplus Hfield os' ctx'. unfold DetectPackageManager.
    rewrite (field_signal pkg "yarn" version hash eq_refl Hplus Hfield).
    rewrite <- isYarnBerry_berryVersion. reflexivity. }
  split.
  { intros version hash Hplus Hfield os' ctx'. unfold DetectPackageManager.
    rewrite (field_signal pkg "bun" version hash eq_refl Hplus Hfield).
    reflexivity. }
  split.
  { intros version hash Hplus Hfield os' ctx'. unfold DetectPackageManager.
    rewrite (field_signal pkg "npm" version hash eq_refl Hplus Hfield).
    reflexivity. }
  split.
  { intros os' ctx'.
    repeat split; intros Hfield;
      unfold DetectPackageManager, fieldSignal, GetPackageManagerInfo;
      rewrite Hfield; reflexivity. }
  split.
  { intros name version hash Hat Hplus Hname Hfield. unfold DetectPackageManager.
    rewrite (field_signal pkg name version hash Hat Hplus Hfield).
    assert (Hnone : (if negb (strEq name "")
                     then fromPackageManagerField name version else None) = None).
    { destruct (strEq name ""); [reflexivity|]. cbn [negb].
      unfold fromPackageManagerField.
      repeat match goal with
             | |- context [strEq name ?k] =>
                 let E := fresh in
                 destruct (strEq name k) eqn:E;
                 [apply strEq_true in E; exfalso; apply Hname; subst name;
                  cbn [In]; tauto|]
             end.
      reflexivity. }
    rewrite Hnone. reflexivity. }
  split.
  { intros before file pm after Hfield Htable Hbefore Hfile.
    unfold DetectPackageManager.
    rewrite (no_field_signal pkg Hfield).
    rewrite (fromLockFiles_first os ctx before after file pm Htable Hbefore Hfile).
    reflexivity. }
  split.
  { intros Hfield Hfiles. unfold DetectPackageManager, fromEngines.
    rewrite (no_field_signal pkg Hfield), (fromLockFiles_none os ctx Hfiles).
    repeat split.
    - intros Hp. apply strEq_false in Hp. rewrite Hp. reflexivity.
    - intros -> Hb. apply strEq_false in Hb. rewrite Hb. reflexivity.
    - intros -> -> Hy. apply strEq_false in Hy. rewrite Hy. reflexivity.
    - intros -> -> ->. reflexivity. }
  intros Hfield os' ctx'. unfold DetectPackageManager.
  rewrite (field_signal pkg "pnpm" "8.6.0" None eq_refl eq_refl Hfield).
  reflexivity.
Qed.

(** The steps against each other on concrete projects: engines.pnpm
    decides in a directory without lock files, a yarn.lock beats it, and
    the field pnpm@8.6.0 beats the yarn.lock. *)
Lemma package_manager_priority_witness :
  DetectPackageManager bareOS appCtx enginesPkg = mkPM PackageManagerPNPM ""
  /\ DetectPackageManager yarnLockOS appCtx enginesPkg = mkPM PackageManagerYarn1 ""
  /\ DetectPackageManager yarnLockOS appCtx
       (withPackageManager enginesPkg "pnpm@8.6.0")
     = mkPM PackageManagerPNPM "8.6.0".
Proof.
  split; [|split].
  - destruct (package_manager_priority bareOS appCtx enginesPkg)
      as (_ & _ & _ & _ & _ & _ & _ & Hengines & _).
    apply Hengines; [reflexivity | | discriminate].
    intros f Hf. unfold lockFileNames in Hf. cbn [In] in Hf.
    repeat (destruct Hf as [<- | Hf]); [..|contradiction];
      vm_compute; reflexivity.
  - destruct (package_manager_priority yarnLockOS appCtx enginesPkg)
      as (_ & _ & _ & _ & _ & _ & Hlock & _).
    apply (Hlock (firstn 5 lockFileTable) "yarn.lock" PackageManagerYarn1
             (skipn 6 lockFileTable)); [reflexivity | reflexivity | | ].
    + intros f Hf. cbn in Hf.
      repeat (destruct Hf as [<- | Hf]); [..|contradiction];
        vm_compute; reflexivity.
    + vm_compute. reflexivity.
  - destruct (package_manager_priority yarnLockOS appCtx
                (withPackageManager enginesPkg "pnpm@8.6.0"))
      as (_ & _ & _ & _ & _ & _ & _ & _ & Hfield).
    apply Hfield. reflexivity.
Defined.

(** The conflict of the specification: the field says pnpm, the directory
    holds a yarn.lock; and the lower steps, each against the one below
    it. *)
Example pnpm_field_beats_yarn_lock :
  let os := osOf {[ "/app/package.json" := "{}"; "/app/yarn.lock" := "" ]} ∅ in
  let bare := osOf {[ "/app/package.json" := "{}" ]} ∅ in
  let pkg := withPackageManager emptyPkg "pnpm@8.6.0" in
  let engines := withEngines emptyPkg (mkEngines "" "" "" "9" "") in
  HasFile os appCtx "yarn.lock" = true
  /\ DetectPackageManager os appCtx emptyPkg = mkPM PackageManagerYarn1 ""
  /\ DetectPackageManager os appCtx pkg = mkPM PackageManagerPNPM "8.6.0"
  /\ DetectPackageManager os appCtx engines = mkPM PackageManagerYarn1 ""
  /\ DetectPackageManager bare appCtx engines = mkPM PackageManagerPNPM ""
  /\ DetectPackageManager bare appCtx emptyPkg = mkPM PackageManagerNPM "".
Proof. vm_compute. repeat split; reflexivity. Qed.

End PackageManagerProps.
